(** * Tool calling for RunAnywhere: a shallow embedding of
      [RunAnywhere+ToolCalling.ts] and of the types of [ToolCallingTypes.ts].

    The TypeScript module keeps a registry of tools, asks the native bridge
    (C++ commons, [rac_tool_calling.h]) to parse model output and to build
    prompts, and runs the generate / parse / execute loop itself.

    Modelling choices.
    - Asynchronous functions are run to completion one after the other: a
      computation is a function from the machine state to a completion (a
      value or a thrown exception) and a new machine state.  The loop of
      [generateWithTools] is run on fuel; [None] means the fuel ran out,
      which [while_loop_runs] shows never happens.
    - Everything the module imports (the text generator, the native module,
      the JavaScript built-ins [JSON.parse], [JSON.stringify], [Date.now]
      and number printing) is a field of the class [Runtime]; the check
      [isNativeModuleAvailable] returns a boolean and does not throw.
    - Calls of [generateStream], of a tool executor and of the native module
      are recorded in a trace, so that statements can count them.  The trace
      also keeps the one log line of the loop that tells what the parse step
      found ([Parsed - hasToolCall: ..., cleanText ...]); the other [logger]
      calls only write to the log and are left out.
    - [registeredTools] is a JavaScript [Map], whose keys keep their
      insertion order ([getRegisteredTools] shows it): an association list.
    - Values that cross the JSON boundary are [JSONValue]s, [undefined] is
      [None].  Where TypeScript types a field read from parsed JSON as
      [string], the value is read through [as_string].
    - [maxToolCalls] is an integer ([int32_t] in [rac_tool_calling.h]). *)

From Stdlib Require Import String Ascii List ZArith QArith Bool Lia DecimalString.
Import ListNotations.

Set Warnings "-register-all".

#[local] Open Scope string_scope.
#[local] Open Scope Z_scope.

(* ===================================================================== *)
(** ** JavaScript values that cross the JSON boundary *)
(* ===================================================================== *)

Inductive JSONValue : Type :=
| JNull
| JBool (b : bool)
| JNumber (q : Q)
| JString (s : string)
| JArray (items : list JSONValue)
| JObject (fields : list (string * JSONValue)).

(** What a [throw] carries: an [Error] object with its message, or any
    other value, kept as the text [String(value)] gives for it. *)
Inductive Thrown : Type :=
| ErrorObject (message : string)
| ThrownValue (repr : string).

Inductive Completion (A : Type) : Type :=
| Normal (a : A)
| Abrupt (e : Thrown).

Arguments Normal {A} a.
Arguments Abrupt {A} e.

Definition nl : string := String "010"%char EmptyString.
Definition dquote : string := String "034"%char EmptyString.

(** [undefined] is [None]; a value is falsy when it is [undefined], [null],
    [false], [0] or the empty string. *)
Definition truthy (v : option JSONValue) : bool :=
  match v with
  | None => false
  | Some JNull => false
  | Some (JBool b) => b
  | Some (JNumber q) => negb (Qeq_bool q 0)
  | Some (JString s) => negb (String.eqb s EmptyString)
  | Some (JArray _) => true
  | Some (JObject _) => true
  end.

Fixpoint assoc {A : Type} (key : string) (l : list (string * A)) : option A :=
  match l with
  | [] => None
  | (k, v) :: rest => if String.eqb k key then Some v else assoc key rest
  end.

(** [String.prototype.toLowerCase] on ASCII letters. *)
Definition lower_ascii (c : ascii) : ascii :=
  let n := nat_of_ascii c in
  if (Nat.leb 65 n && Nat.leb n 90)%bool then ascii_of_nat (n + 32) else c.

Fixpoint toLowerCase (s : string) : string :=
  match s with
  | EmptyString => EmptyString
  | String c rest => String (lower_ascii c) (toLowerCase rest)
  end.

(* ===================================================================== *)
(** ** ToolCallingTypes.ts *)
(* ===================================================================== *)

Inductive ParameterType : Type :=
| TString | TNumber | TBoolean | TObject | TArray.

Definition ParameterType_text (t : ParameterType) : string :=
  match t with
  | TString => "string"
  | TNumber => "number"
  | TBoolean => "boolean"
  | TObject => "object"
  | TArray => "array"
  end.

Module ToolParameter.
Record t : Type := make {
  name : string;
  type : ParameterType;
  description : string;
  required : bool;
  defaultValue : option JSONValue;
  enum : option (list string)
}.
End ToolParameter.

Module ToolDefinition.
Record t : Type := make {
  name : string;
  description : string;
  parameters : list ToolParameter.t;
  category : option string
}.
End ToolDefinition.

Module ToolCall.
Record t : Type := make {
  toolName : string;
  arguments : JSONValue;
  callId : option string
}.
End ToolCall.

Module ToolResult.
Record t : Type := make {
  toolName : string;
  success : bool;
  result : option JSONValue;
  error : option string;
  callId : option string
}.
End ToolResult.

Module ToolCallingOptions.
Record t : Type := make {
  tools : option (list ToolDefinition.t);
  maxToolCalls : option Z;
  autoExecute : option bool;
  temperature : option Q;
  maxTokens : option Z;
  systemPrompt : option string;
  replaceSystemPrompt : option bool;
  keepToolsAvailable : option bool;
  format : option string
}.

(** The object [{}]: every field [undefined]. *)
Definition empty : t := make None None None None None None None None None.
End ToolCallingOptions.

Module ToolCallingResult.
Record t : Type := make {
  text : string;
  toolCalls : list ToolCall.t;
  toolResults : list ToolResult.t;
  isComplete : bool
}.
End ToolCallingResult.

(** The options [generateWithTools] hands to [generateStream]. *)
Record GenerationOptions : Type := {
  gen_maxTokens : option Z;
  gen_temperature : option Q
}.

(* ===================================================================== *)
(** ** The runtime the module runs in *)
(* ===================================================================== *)

Class Runtime : Type := {
  World : Type;
  (** [generateStream] of [RunAnywhere+TextGeneration], with its stream read
      to the end: the tokens, or the exception raised on the way. *)
  generateStream : string -> GenerationOptions -> World -> Completion (list string) * World;
  (** ['../../native'] *)
  isNativeModuleAvailable : World -> bool;
  requireNativeModule : World -> Completion unit;
  native_parseToolCallFromOutput : string -> World -> Completion string * World;
  native_formatToolsForPrompt : string -> string -> World -> Completion string * World;
  native_buildInitialPrompt : string -> string -> string -> World -> Completion string * World;
  native_buildFollowupPrompt :
    string -> string -> string -> string -> bool -> World -> Completion string * World;
  (** JavaScript built-ins *)
  JSON_parse : string -> Completion JSONValue;
  JSON_stringify : JSONValue -> string;
  Number_toString : Q -> string;
  Date_now : World -> Z
}.

(** [ToolExecutor]: arguments in, a result or an exception out. *)
Definition ToolExecutor `{Runtime} : Type :=
  JSONValue -> World -> Completion JSONValue * World.

Module RegisteredTool.
Record t `{Runtime} : Type := make {
  definition : ToolDefinition.t;
  executor : ToolExecutor
}.
End RegisteredTool.

Inductive Event : Type :=
| EvGenerate (prompt : string)
| EvParsed (cleanText : string) (call : option ToolCall.t)
| EvExecutor (toolName : string) (args : JSONValue)
| EvNative (method : string).

(** The module's state: the outside world, the private [registeredTools]
    map (a JavaScript [Map]: keys in insertion order) and the trace. *)
Record Machine `{Runtime} : Type := {
  world : World;
  registeredTools : list (string * RegisteredTool.t);
  trace : list Event
}.

Definition is_generate (e : Event) : bool :=
  match e with EvGenerate _ => true | _ => false end.

Definition is_executor (e : Event) : bool :=
  match e with EvExecutor _ _ => true | _ => false end.

Definition is_native (e : Event) : bool :=
  match e with EvNative _ => true | _ => false end.

Definition generations (tr : list Event) : nat := length (filter is_generate tr).
Definition executions (tr : list Event) : nat := length (filter is_executor tr).

(** What the parse steps of a run found, round by round. *)
Fixpoint parse_log (tr : list Event) : list (string * option ToolCall.t) :=
  match tr with
  | [] => []
  | EvParsed cleanText call :: rest => (cleanText, call) :: parse_log rest
  | _ :: rest => parse_log rest
  end.

Definition has_call (p : string * option ToolCall.t) : bool :=
  match snd p with Some _ => true | None => false end.

(** The clean text of the last parse step, the empty string when there was
    none. *)
Definition last_text (ps : list (string * option ToolCall.t)) : string :=
  last (map fst ps) EmptyString.

(* ===================================================================== *)
(** ** Computations: state, exceptions, fuel *)
(* ===================================================================== *)

Section ToolCalling.

Context `{RT : Runtime}.

Definition M (A : Type) : Type := Machine -> option (Completion A * Machine).

Definition ret {A : Type} (a : A) : M A := fun m => Some (Normal a, m).

Definition throw {A : Type} (e : Thrown) : M A := fun m => Some (Abrupt e, m).

Definition out_of_fuel {A : Type} : M A := fun _ => None.

Definition bind {A B : Type} (c : M A) (k : A -> M B) : M B :=
  fun m =>
    match c m with
    | Some (Normal a, m') => k a m'
    | Some (Abrupt e, m') => Some (Abrupt e, m')
    | None => None
    end.

(** [try { body } catch (error) { handler }] *)
Definition try_catch {A : Type} (body : M A) (handler : Thrown -> M A) : M A :=
  fun m =>
    match body m with
    | Some (Abrupt e, m') => handler e m'
    | r => r
    end.

Notation "x <- c ;; k" := (bind c (fun x => k))
  (at level 61, c at next level, right associativity).

(** A call out of the module: the world moves on, the event is recorded. *)
Definition external {A : Type} (ev : Event)
    (f : World -> Completion A * World) : M A :=
  fun m =>
    let (r, w) := f (world m) in
    Some (r, {| world := w;
                registeredTools := registeredTools m;
                trace := trace m ++ [ev] |}).

(** A line of the log that the trace keeps. *)
Definition note (ev : Event) : M unit :=
  fun m =>
    Some (Normal tt, {| world := world m;
                        registeredTools := registeredTools m;
                        trace := trace m ++ [ev] |}).

(** Reading the world without changing it. *)
Definition observe {A : Type} (f : World -> A) : M A :=
  fun m => Some (Normal (f (world m)), m).

(** A check of the world that may throw. *)
Definition attempt {A : Type} (f : World -> Completion A) : M A :=
  fun m => Some (f (world m), m).

Definition lift {A : Type} (c : Completion A) : M A :=
  fun m => Some (c, m).

(* --------------------------------------------------------------------- *)
(** *** JavaScript helpers *)

(** [String(v)], as template literals apply it. *)
Fixpoint ToString (v : JSONValue) : string :=
  match v with
  | JNull => "null"
  | JBool true => "true"
  | JBool false => "false"
  | JNumber q => Number_toString q
  | JString s => s
  | JArray items =>
      (fix join (l : list JSONValue) : string :=
         match l with
         | [] => EmptyString
         | x :: rest =>
             (match x with JNull => EmptyString | _ => ToString x end)
             ++ (match rest with [] => EmptyString | _ => "," ++ join rest end)
         end) items
  | JObject _ => "[object Object]"
  end.

(** A slot that TypeScript types as [string], read from a parsed JSON
    object: the bridge writes a string there; anything else is shown as
    [String] shows it. *)
Definition as_string (v : option JSONValue) : string :=
  match v with
  | None => "undefined"
  | Some j => ToString j
  end.

(** [value.key] on a parsed JSON value: a [TypeError] on [null], the field
    on an object, [undefined] on anything else. *)
Definition get_property (value : JSONValue) (key : string) : M (option JSONValue) :=
  match value with
  | JNull => throw (ErrorObject ("Cannot read properties of null (reading '" ++ key ++ "')"))
  | JObject fields => ret (assoc key fields)
  | _ => ret None
  end.

(** [options?.field] *)
Definition opt {A : Type} (options : option ToolCallingOptions.t)
    (field : ToolCallingOptions.t -> option A) : option A :=
  match options with
  | None => None
  | Some o => field o
  end.

(** [a ?? b] *)
Definition nullish {A : Type} (a : option A) (b : A) : A :=
  match a with
  | Some x => x
  | None => b
  end.

(** [s || d] for an optional string: [undefined] and the empty string fall
    through to [d]. *)
Definition or_string (s : option string) (d : string) : string :=
  match s with
  | None => d
  | Some x => if String.eqb x EmptyString then d else x
  end.

(* ===================================================================== *)
(** ** Tool registration *)
(* ===================================================================== *)

(** [Map.prototype.set]: an existing key keeps its place. *)
Fixpoint Map_set {A : Type} (key : string) (v : A) (l : list (string * A))
    : list (string * A) :=
  match l with
  | [] => [(key, v)]
  | (k, x) :: rest =>
      if String.eqb k key then (k, v) :: rest else (k, x) :: Map_set key v rest
  end.

Fixpoint Map_delete {A : Type} (key : string) (l : list (string * A))
    : list (string * A) :=
  match l with
  | [] => []
  | (k, x) :: rest =>
      if String.eqb k key then rest else (k, x) :: Map_delete key rest
  end.

Definition update_registry
    (f : list (string * RegisteredTool.t) -> list (string * RegisteredTool.t))
    : M unit :=
  fun m =>
    Some (Normal tt, {| world := world m;
                        registeredTools := f (registeredTools m);
                        trace := trace m |}).

Definition registerTool (definition : ToolDefinition.t) (executor : ToolExecutor)
    : M unit :=
  update_registry
    (Map_set (ToolDefinition.name definition)
             {| RegisteredTool.definition := definition;
                RegisteredTool.executor := executor |}).

Definition unregisterTool (toolName : string) : M unit :=
  update_registry (Map_delete toolName).

Definition getRegisteredTools : M (list ToolDefinition.t) :=
  fun m =>
    Some (Normal (map (fun t => RegisteredTool.definition (snd t)) (registeredTools m)), m).

Definition clearTools : M unit :=
  update_registry (fun _ => []).

(* ===================================================================== *)
(** ** Calls into the C++ bridge *)
(* ===================================================================== *)

Record ParsedOutput : Type := {
  text : string;
  toolCall : option ToolCall.t
}.

Definition parseToolCallViaCpp (llmOutput : string) : M ParsedOutput :=
  available <- observe isNativeModuleAvailable ;;
  if negb available then
    ret {| text := llmOutput; toolCall := None |}
  else
    try_catch
      (_ <- attempt requireNativeModule ;;
       resultJson <- external (EvNative "parseToolCallFromOutput")
                       (native_parseToolCallFromOutput llmOutput) ;;
       result <- lift (JSON_parse resultJson) ;;
       hasToolCall <- get_property result "hasToolCall" ;;
       if negb (truthy hasToolCall) then
         cleanText <- get_property result "cleanText" ;;
         ret {| text := if truthy cleanText then as_string cleanText else llmOutput;
                toolCall := None |}
       else
         argumentsJson <- get_property result "argumentsJson" ;;
         args <- (if truthy argumentsJson then
                    match argumentsJson with
                    | Some (JString s) => lift (JSON_parse s)
                    | Some v => ret v
                    | None => ret (JObject [])
                    end
                  else ret (JObject [])) ;;
         toolName <- get_property result "toolName" ;;
         callId <- get_property result "callId" ;;
         id <- (if truthy callId then ret (as_string callId)
                else now <- observe Date_now ;;
                     ret (Number_toString (inject_Z now))) ;;
         cleanText <- get_property result "cleanText" ;;
         ret {| text := if truthy cleanText then as_string cleanText else EmptyString;
                toolCall := Some {| ToolCall.toolName := as_string toolName;
                                    ToolCall.arguments := args;
                                    ToolCall.callId := Some ("call_" ++ id) |} |})
      (fun error => ret {| text := llmOutput; toolCall := None |}).

(** The tools as the module serializes them for the bridge (the expression
    [JSON.stringify(tools.map(...))], written out three times in the
    source). *)
Definition serializeParameter (p : ToolParameter.t) : JSONValue :=
  JObject
    ([("name", JString (ToolParameter.name p));
      ("type", JString (ParameterType_text (ToolParameter.type p)));
      ("description", JString (ToolParameter.description p));
      ("required", JBool (ToolParameter.required p))]
     ++ match ToolParameter.enum p with
        | Some values => [("enumValues", JArray (map JString values))]
        | None => []
        end).

Definition serializeTool (tool : ToolDefinition.t) : JSONValue :=
  JObject
    [("name", JString (ToolDefinition.name tool));
     ("description", JString (ToolDefinition.description tool));
     ("parameters", JArray (map serializeParameter (ToolDefinition.parameters tool)))].

Definition serializeTools (tools : list ToolDefinition.t) : string :=
  JSON_stringify (JArray (map serializeTool tools)).

(** [tools || getRegisteredTools()]: an array, even empty, is truthy. *)
Definition tools_or_registered (tools : option (list ToolDefinition.t))
    : M (list ToolDefinition.t) :=
  match tools with
  | Some given => ret given
  | None => getRegisteredTools
  end.

Definition formatToolsForPrompt (tools : option (list ToolDefinition.t))
    (format : option string) : M string :=
  toolsToFormat <- tools_or_registered tools ;;
  let toolFormat := or_string (option_map toLowerCase format) "default" in
  if Nat.eqb (length toolsToFormat) 0 then
    ret EmptyString
  else
    let toolsJson := serializeTools toolsToFormat in
    ret toolsJson.

Definition formatToolsForPromptAsync (tools : option (list ToolDefinition.t))
    (format : option string) : M string :=
  toolsToFormat <- tools_or_registered tools ;;
  let toolFormat := or_string (option_map toLowerCase format) "default" in
  if Nat.eqb (length toolsToFormat) 0 then
    ret EmptyString
  else
    let toolsJson := serializeTools toolsToFormat in
    available <- observe isNativeModuleAvailable ;;
    if negb available then
      ret toolsJson
    else
      try_catch
        (_ <- attempt requireNativeModule ;;
         external (EvNative "formatToolsForPrompt")
           (native_formatToolsForPrompt toolsJson toolFormat))
        (fun error => ret toolsJson).

(* ===================================================================== *)
(** ** Tool execution *)
(* ===================================================================== *)

(** [error instanceof Error ? error.message : String(error)] *)
Definition errorMessage_of (error : Thrown) : string :=
  match error with
  | ErrorObject message => message
  | ThrownValue repr => repr
  end.

(** [registeredTools.get(toolName)] *)
Definition registeredTools_get (toolName : string) : M (option RegisteredTool.t) :=
  fun m => Some (Normal (assoc toolName (registeredTools m)), m).

Definition executeTool (toolCall : ToolCall.t) : M ToolResult.t :=
  tool <- registeredTools_get (ToolCall.toolName toolCall) ;;
  match tool with
  | None =>
      ret {| ToolResult.toolName := ToolCall.toolName toolCall;
             ToolResult.success := false;
             ToolResult.result := None;
             ToolResult.error := Some ("Unknown tool: " ++ ToolCall.toolName toolCall);
             ToolResult.callId := ToolCall.callId toolCall |}
  | Some tool =>
      try_catch
        (result <- external
                     (EvExecutor (ToolCall.toolName toolCall) (ToolCall.arguments toolCall))
                     (RegisteredTool.executor tool (ToolCall.arguments toolCall)) ;;
         ret {| ToolResult.toolName := ToolCall.toolName toolCall;
                ToolResult.success := true;
                ToolResult.result := Some result;
                ToolResult.error := None;
                ToolResult.callId := ToolCall.callId toolCall |})
        (fun error =>
           let errorMessage := errorMessage_of error in
           ret {| ToolResult.toolName := ToolCall.toolName toolCall;
                  ToolResult.success := false;
                  ToolResult.result := None;
                  ToolResult.error := Some errorMessage;
                  ToolResult.callId := ToolCall.callId toolCall |})
  end.

(* ===================================================================== *)
(** ** Prompt building through the bridge *)
(* ===================================================================== *)

Definition optionsJson_of (options : option ToolCallingOptions.t) : string :=
  JSON_stringify
    (JObject
       ([("maxToolCalls",
          JNumber (inject_Z (nullish (opt options ToolCallingOptions.maxToolCalls) 5)));
         ("autoExecute",
          JBool (nullish (opt options ToolCallingOptions.autoExecute) true));
         ("temperature",
          JNumber (nullish (opt options ToolCallingOptions.temperature) (7 # 10)%Q));
         ("maxTokens",
          JNumber (inject_Z (nullish (opt options ToolCallingOptions.maxTokens) 1024)));
         ("format",
          JString (nullish (opt options ToolCallingOptions.format) "default"));
         ("replaceSystemPrompt",
          JBool (nullish (opt options ToolCallingOptions.replaceSystemPrompt) false));
         ("keepToolsAvailable",
          JBool (nullish (opt options ToolCallingOptions.keepToolsAvailable) false))]
        ++ match opt options ToolCallingOptions.systemPrompt with
           | Some systemPrompt => [("systemPrompt", JString systemPrompt)]
           | None => []
           end)).

Definition buildInitialPromptViaCpp (userPrompt toolsJson : string)
    (options : option ToolCallingOptions.t) : M string :=
  available <- observe isNativeModuleAvailable ;;
  if negb available then
    ret (toolsJson ++ nl ++ nl ++ "User: " ++ userPrompt)
  else
    try_catch
      (_ <- attempt requireNativeModule ;;
       let optionsJson := optionsJson_of options in
       external (EvNative "buildInitialPrompt")
         (native_buildInitialPrompt userPrompt toolsJson optionsJson))
      (fun error => ret (toolsJson ++ nl ++ nl ++ "User: " ++ userPrompt)).

Definition buildFollowupPromptViaCpp
    (originalPrompt toolsPrompt toolName resultJson : string)
    (keepToolsAvailable : bool) : M string :=
  available <- observe isNativeModuleAvailable ;;
  if negb available then
    if keepToolsAvailable then
      ret (toolsPrompt ++ nl ++ nl ++ "User: " ++ originalPrompt ++ nl ++ nl
           ++ "Tool " ++ toolName ++ " returned: " ++ resultJson)
    else
      ret ("The user asked: " ++ dquote ++ originalPrompt ++ dquote ++ nl ++ nl
           ++ "You used " ++ toolName ++ " and got: " ++ resultJson ++ nl ++ nl
           ++ "Respond naturally.")
  else
    try_catch
      (_ <- attempt requireNativeModule ;;
       external (EvNative "buildFollowupPrompt")
         (native_buildFollowupPrompt originalPrompt toolsPrompt toolName resultJson
            keepToolsAvailable))
      (fun error =>
         ret ("The user asked: " ++ dquote ++ originalPrompt ++ dquote ++ nl ++ nl
              ++ "You used " ++ toolName ++ " and got: " ++ resultJson)).

(* ===================================================================== *)
(** ** Main API: generate with tools *)
(* ===================================================================== *)

(** The variables of [generateWithTools] that its loop updates. *)
Record LoopVars : Type := {
  fullPrompt : string;
  allToolCalls : list ToolCall.t;
  allToolResults : list ToolResult.t;
  finalText : string;
  iterations : Z
}.

(** How one pass through the loop body ends: at its last line, at the
    [break], or at the [return] inside the loop. *)
Inductive LoopStep : Type :=
| Continue (v : LoopVars)
| Break (v : LoopVars)
| Return (r : ToolCallingResult.t).

(** [result.success ? result.result : { error: result.error }] *)
Definition resultData (result : ToolResult.t) : option JSONValue :=
  if ToolResult.success result then ToolResult.result result
  else Some (JObject match ToolResult.error result with
                     | Some e => [("error", JString e)]
                     | None => []
                     end).

(** [JSON.stringify] of a value that may be [undefined]. *)
Definition stringify (v : option JSONValue) : string :=
  match v with
  | Some j => JSON_stringify j
  | None => "undefined"
  end.

Section Loop.

Variable prompt : string.
Variable options : option ToolCallingOptions.t.
Variable maxToolCalls : Z.
Variable autoExecute : bool.
Variable keepToolsAvailable : bool.
Variable toolsPrompt : string.

(** The first half of the loop body: generate a response, join the
    tokens, parse the text. *)
Definition generate_and_parse (v : LoopVars) : M ParsedOutput :=
  tokens <- external (EvGenerate (fullPrompt v))
              (generateStream (fullPrompt v)
                 {| gen_maxTokens := opt options ToolCallingOptions.maxTokens;
                    gen_temperature := opt options ToolCallingOptions.temperature |}) ;;
  let responseText := String.concat EmptyString tokens in
  parsed <- parseToolCallViaCpp responseText ;;
  _ <- note (EvParsed (text parsed) (toolCall parsed)) ;;
  ret parsed.

Definition loop_body (v : LoopVars) : M LoopStep :=
  let iterations' := iterations v + 1 in
  parsed <- generate_and_parse v ;;
  let finalText' := text parsed in
  match toolCall parsed with
  | None =>
      ret (Break {| fullPrompt := fullPrompt v;
                    allToolCalls := allToolCalls v;
                    allToolResults := allToolResults v;
                    finalText := finalText';
                    iterations := iterations' |})
  | Some toolCall =>
      let allToolCalls' := (allToolCalls v ++ [toolCall])%list in
      if negb autoExecute then
        ret (Return {| ToolCallingResult.text := finalText';
                       ToolCallingResult.toolCalls := allToolCalls';
                       ToolCallingResult.toolResults := [];
                       ToolCallingResult.isComplete := false |})
      else
        result <- executeTool toolCall ;;
        let allToolResults' := (allToolResults v ++ [result])%list in
        fullPrompt' <- buildFollowupPromptViaCpp prompt toolsPrompt
                         (ToolCall.toolName toolCall)
                         (stringify (resultData result))
                         keepToolsAvailable ;;
        ret (Continue {| fullPrompt := fullPrompt';
                         allToolCalls := allToolCalls';
                         allToolResults := allToolResults';
                         finalText := finalText';
                         iterations := iterations' |})
  end.

(** [while (iterations < maxToolCalls) { ... }]: the variables at the exit
    of the loop, or the result returned from inside it. *)
Fixpoint while_loop (fuel : nat) (v : LoopVars)
    : M (LoopVars + ToolCallingResult.t) :=
  if iterations v <? maxToolCalls then
    match fuel with
    | O => out_of_fuel
    | S fuel' =>
        step <- loop_body v ;;
        match step with
        | Continue v' => while_loop fuel' v'
        | Break v' => ret (inl v')
        | Return r => ret (inr r)
        end
    end
  else ret (inl v).

End Loop.

Definition generateWithTools (prompt : string)
    (options : option ToolCallingOptions.t) : M ToolCallingResult.t :=
  tools <- match opt options ToolCallingOptions.tools with
           | Some given => ret given
           | None => getRegisteredTools
           end ;;
  let maxToolCalls := nullish (opt options ToolCallingOptions.maxToolCalls) 5 in
  let autoExecute := nullish (opt options ToolCallingOptions.autoExecute) true in
  let keepToolsAvailable :=
    nullish (opt options ToolCallingOptions.keepToolsAvailable) false in
  let format := or_string (opt options ToolCallingOptions.format) "default" in
  let toolsJson := serializeTools tools in
  fullPrompt0 <- buildInitialPromptViaCpp prompt toolsJson options ;;
  toolsPrompt <- (if keepToolsAvailable
                  then formatToolsForPromptAsync (Some tools) (Some format)
                  else ret EmptyString) ;;
  exit <- while_loop prompt options maxToolCalls autoExecute keepToolsAvailable
            toolsPrompt (Z.to_nat maxToolCalls)
            {| fullPrompt := fullPrompt0;
               allToolCalls := [];
               allToolResults := [];
               finalText := EmptyString;
               iterations := 0 |} ;;
  match exit with
  | inr returned => ret returned
  | inl v =>
      ret {| ToolCallingResult.text := finalText v;
             ToolCallingResult.toolCalls := allToolCalls v;
             ToolCallingResult.toolResults := allToolResults v;
             ToolCallingResult.isComplete := true |}
  end.

(** [{ ...options, maxToolCalls: n }] *)
Definition with_maxToolCalls (options : option ToolCallingOptions.t) (n : Z)
    : ToolCallingOptions.t :=
  let o := nullish options ToolCallingOptions.empty in
  {| ToolCallingOptions.tools := ToolCallingOptions.tools o;
     ToolCallingOptions.maxToolCalls := Some n;
     ToolCallingOptions.autoExecute := ToolCallingOptions.autoExecute o;
     ToolCallingOptions.temperature := ToolCallingOptions.temperature o;
     ToolCallingOptions.maxTokens := ToolCallingOptions.maxTokens o;
     ToolCallingOptions.systemPrompt := ToolCallingOptions.systemPrompt o;
     ToolCallingOptions.replaceSystemPrompt := ToolCallingOptions.replaceSystemPrompt o;
     ToolCallingOptions.keepToolsAvailable := ToolCallingOptions.keepToolsAvailable o;
     ToolCallingOptions.format := ToolCallingOptions.format o |}.

(** The prompt [continueWithToolResult] resumes with. *)
Definition continuedPrompt_of (previousPrompt : string)
    (toolCall : ToolCall.t) (toolResult : ToolResult.t) : string :=
  let resultJson :=
    if ToolResult.success toolResult
    then stringify (ToolResult.result toolResult)
    else "Error: " ++ match ToolResult.error toolResult with
                      | Some e => e
                      | None => "undefined"
                      end in
  previousPrompt ++ nl ++ nl ++ "Tool Result for " ++ ToolCall.toolName toolCall
  ++ ": " ++ resultJson ++ nl ++ nl
  ++ "Based on the tool result, please provide your response:".

Definition continueWithToolResult (previousPrompt : string)
    (toolCall : ToolCall.t) (toolResult : ToolResult.t)
    (options : option ToolCallingOptions.t) : M ToolCallingResult.t :=
  let continuedPrompt := continuedPrompt_of previousPrompt toolCall toolResult in
  generateWithTools continuedPrompt
    (Some (with_maxToolCalls options
             (nullish (opt options ToolCallingOptions.maxToolCalls) 5 - 1))).

End ToolCalling.


(* ===================================================================== *)
(** ** Runs of the loop, seen from the trace *)
(* ===================================================================== *)

#[local] Open Scope list_scope.

Definition natives_only (evs : list Event) : Prop :=
  Forall (fun e => is_native e = true) evs.

(** A result answers a call: same tool name, same call id. *)
Definition answers (r : ToolResult.t) (c : ToolCall.t) : Prop :=
  ToolResult.toolName r = ToolCall.toolName c /\
  ToolResult.callId r = ToolCall.callId c.

(** The events of [executeTool]: none for an unknown tool, one executor
    call otherwise. *)
Definition execution_events (c : ToolCall.t) (evs : list Event) : Prop :=
  evs = [] \/ evs = [EvExecutor (ToolCall.toolName c) (ToolCall.arguments c)].

Section LoopRuns.

Variable maxToolCalls : Z.
Variable autoExecute : bool.

(** [loop_run v evs out]: started with variables [v], the loop writes the
    events [evs] and ends as [out]. *)
Inductive loop_run : LoopVars -> list Event ->
                     Completion (LoopVars + ToolCallingResult.t) -> Prop :=
| run_exit v :
    maxToolCalls <= iterations v ->
    loop_run v [] (Normal (inl v))
| run_generation_fails v e :
    iterations v < maxToolCalls ->
    loop_run v [EvGenerate (fullPrompt v)] (Abrupt e)
| run_break v ns t :
    iterations v < maxToolCalls ->
    natives_only ns ->
    loop_run v (EvGenerate (fullPrompt v) :: ns ++ [EvParsed t None])
      (Normal (inl {| fullPrompt := fullPrompt v;
                      allToolCalls := allToolCalls v;
                      allToolResults := allToolResults v;
                      finalText := t;
                      iterations := iterations v + 1 |}))
| run_return v ns t c :
    iterations v < maxToolCalls ->
    autoExecute = false ->
    natives_only ns ->
    loop_run v (EvGenerate (fullPrompt v) :: ns ++ [EvParsed t (Some c)])
      (Normal (inr {| ToolCallingResult.text := t;
                      ToolCallingResult.toolCalls := allToolCalls v ++ [c];
                      ToolCallingResult.toolResults := [];
                      ToolCallingResult.isComplete := false |}))
| run_continue v ns t c r ex ns' fp evs out :
    iterations v < maxToolCalls ->
    autoExecute = true ->
    natives_only ns ->
    answers r c ->
    execution_events c ex ->
    natives_only ns' ->
    loop_run {| fullPrompt := fp;
                allToolCalls := allToolCalls v ++ [c];
                allToolResults := allToolResults v ++ [r];
                finalText := t;
                iterations := iterations v + 1 |} evs out ->
    loop_run v
      (EvGenerate (fullPrompt v) :: ns ++ [EvParsed t (Some c)] ++ ex ++ ns' ++ evs)
      out.

End LoopRuns.

(** What [generateWithTools] makes of the way its loop ended. *)
Definition result_of_exit (out : Completion (LoopVars + ToolCallingResult.t))
    : Completion ToolCallingResult.t :=
  match out with
  | Abrupt e => Abrupt e
  | Normal (inr returned) => Normal returned
  | Normal (inl v) =>
      Normal {| ToolCallingResult.text := finalText v;
                ToolCallingResult.toolCalls := allToolCalls v;
                ToolCallingResult.toolResults := allToolResults v;
                ToolCallingResult.isComplete := true |}
  end.

(** The variables at the first test of the loop. *)
Definition initial_vars (fullPrompt0 : string) : LoopVars :=
  {| fullPrompt := fullPrompt0;
     allToolCalls := [];
     allToolResults := [];
     finalText := EmptyString;
     iterations := 0 |}.

Section Behaviour.

Context `{RT : Runtime}.

(** A computation that only talks to the native module: it ends, leaves
    the registry alone and writes nothing but native calls. *)
Definition quiet {A : Type} (c : M A) : Prop :=
  forall m, exists r evs m',
    c m = Some (r, m') /\
    trace m' = trace m ++ evs /\
    natives_only evs /\
    registeredTools m' = registeredTools m.

(** A quiet computation that never throws. *)
Definition safe {A : Type} (c : M A) : Prop :=
  forall m, exists a evs m',
    c m = Some (Normal a, m') /\
    trace m' = trace m ++ evs /\
    natives_only evs /\
    registeredTools m' = registeredTools m.

(** The ways the parse step can fail on [llmOutput] in machine [m]. *)
Inductive parse_failure (llmOutput : string) (m : Machine) : Prop :=
| native_unavailable :
    isNativeModuleAvailable (world m) = false ->
    parse_failure llmOutput m
| native_not_loaded e :
    isNativeModuleAvailable (world m) = true ->
    requireNativeModule (world m) = Abrupt e ->
    parse_failure llmOutput m
| native_parse_error e w :
    isNativeModuleAvailable (world m) = true ->
    native_parseToolCallFromOutput llmOutput (world m) = (Abrupt e, w) ->
    parse_failure llmOutput m
| result_unparseable resultJson w e :
    isNativeModuleAvailable (world m) = true ->
    native_parseToolCallFromOutput llmOutput (world m) = (Normal resultJson, w) ->
    JSON_parse resultJson = Abrupt e ->
    parse_failure llmOutput m
| result_null resultJson w :
    isNativeModuleAvailable (world m) = true ->
    native_parseToolCallFromOutput llmOutput (world m) = (Normal resultJson, w) ->
    JSON_parse resultJson = Normal JNull ->
    parse_failure llmOutput m
| arguments_unparseable resultJson w fields argumentsJson e :
    isNativeModuleAvailable (world m) = true ->
    native_parseToolCallFromOutput llmOutput (world m) = (Normal resultJson, w) ->
    JSON_parse resultJson = Normal (JObject fields) ->
    truthy (assoc "hasToolCall" fields) = true ->
    assoc "argumentsJson" fields = Some (JString argumentsJson) ->
    argumentsJson <> EmptyString ->
    JSON_parse argumentsJson = Abrupt e ->
    parse_failure llmOutput m.

End Behaviour.

(* ===================================================================== *)
(** ** A concrete runtime: scripted model, table-driven bridge *)
(* ===================================================================== *)

Module Demo.

#[local] Open Scope string_scope.

Definition quoted (s : string) : string := dquote ++ s ++ dquote.

Definition digits (z : Z) : string := NilZero.string_of_int (Z.to_int z).

(** Integers as they are, other numbers with one decimal. *)
Definition number_text (q : Q) : string :=
  if Pos.eqb (Qden q) 1 then digits (Qnum q)
  else let tenths := (Qnum q * 10) / Zpos (Qden q) in
       digits (tenths / 10) ++ "." ++ digits (tenths mod 10).

Fixpoint stringify (v : JSONValue) : string :=
  match v with
  | JNull => "null"
  | JBool true => "true"
  | JBool false => "false"
  | JNumber q => number_text q
  | JString s => quoted s
  | JArray items =>
      "[" ++ (fix go (l : list JSONValue) : string :=
                match l with
                | [] => EmptyString
                | x :: rest =>
                    stringify x
                    ++ match rest with [] => EmptyString | _ => "," ++ go rest end
                end) items ++ "]"
  | JObject fields =>
      "{" ++ (fix go (l : list (string * JSONValue)) : string :=
                match l with
                | [] => EmptyString
                | (k, x) :: rest =>
                    quoted k ++ ":" ++ stringify x
                    ++ match rest with [] => EmptyString | _ => "," ++ go rest end
                end) fields ++ "}"
  end.

(** A well-formed call in the tag-JSON dialect. *)
Definition tool_call_text (tool : string) : string :=
  "<tool_call>{" ++ quoted "tool" ++ ":" ++ quoted tool ++ ","
  ++ quoted "arguments" ++ ":{}}</tool_call>".

Definition answer : string := "It is 18 degrees in SF.".

Definition known_tools : list string := ["get_weather"; "get_time"; "crash"; "garbled"].

(** What the bridge reports about an output: a call when the output is a
    call of a known name, no call otherwise.  The call of [garbled] comes
    back with arguments that are not JSON. *)
Definition bridge_report (llmOutput : string) : JSONValue :=
  match find (fun tool => String.eqb (tool_call_text tool) llmOutput) known_tools with
  | Some tool =>
      JObject [("hasToolCall", JBool true);
               ("toolName", JString tool);
               ("argumentsJson",
                JString (if String.eqb tool "garbled" then "{location:" else "{}"));
               ("cleanText", JString EmptyString);
               ("callId", JNumber (inject_Z (Z.of_nat (String.length tool))))]
  | None =>
      JObject [("hasToolCall", JBool false); ("cleanText", JString llmOutput)]
  end.

Definition outputs : list string := answer :: map tool_call_text known_tools.

(** [JSON.parse], on the texts this runtime produces. *)
Definition parse_json (s : string) : Completion JSONValue :=
  if String.eqb s "{}" then Normal (JObject [])
  else match find (fun o => String.eqb (stringify (bridge_report o)) s) outputs with
       | Some o => Normal (bridge_report o)
       | None => Abrupt (ErrorObject "Unexpected token in JSON")
       end.

(** The world counts the generations served; generation [n] returns the
    [n]-th entry of the script, and the plain answer once it is over.  The
    clock stands still. *)
Definition runtime (native : bool) (script : list (Completion (list string)))
    : Runtime := {|
  World := nat;
  generateStream := fun _ _ w => (nth w script (Normal [answer]), S w);
  isNativeModuleAvailable := fun _ => native;
  requireNativeModule := fun _ => Normal tt;
  native_parseToolCallFromOutput := fun s w => (Normal (stringify (bridge_report s)), w);
  native_formatToolsForPrompt := fun toolsJson format w =>
    (Normal ("Tools (" ++ format ++ "): " ++ toolsJson), w);
  native_buildInitialPrompt := fun userPrompt toolsJson _ w =>
    (Normal (toolsJson ++ nl ++ userPrompt), w);
  native_buildFollowupPrompt := fun originalPrompt _ toolName resultJson _ w =>
    (Normal (originalPrompt ++ nl ++ toolName ++ " -> " ++ resultJson), w);
  JSON_parse := parse_json;
  JSON_stringify := stringify;
  Number_toString := number_text;
  Date_now := fun _ => 1700000000000
|}.

Definition get_weather : ToolDefinition.t :=
  {| ToolDefinition.name := "get_weather";
     ToolDefinition.description := "Current weather for a place";
     ToolDefinition.parameters :=
       [{| ToolParameter.name := "location";
           ToolParameter.type := TString;
           ToolParameter.description := "City name";
           ToolParameter.required := true;
           ToolParameter.defaultValue := None;
           ToolParameter.enum := None |}];
     ToolDefinition.category := None |}.

Definition crash : ToolDefinition.t :=
  {| ToolDefinition.name := "crash";
     ToolDefinition.description := "A tool whose executor throws";
     ToolDefinition.parameters := [];
     ToolDefinition.category := None |}.

Section Scripted.

Variable native : bool.
Variable script : list (Completion (list string)).

(** The machine at start: [get_weather] and [crash] registered, nothing
    generated yet. *)
Definition start : @Machine (runtime native script) :=
  {| world := (0%nat : @World (runtime native script));
     registeredTools :=
       [("get_weather",
         {| RegisteredTool.definition := get_weather;
            RegisteredTool.executor := fun _ w =>
              (Normal (JObject [("temperature", JNumber (inject_Z 18))]), w) |});
        ("crash",
         {| RegisteredTool.definition := crash;
            RegisteredTool.executor := fun _ w =>
              (Abrupt (ErrorObject "sensor offline"), w) |})];
     trace := [] |}.

End Scripted.

Definition says (texts : list string) : list (Completion (list string)) :=
  map (fun t => Normal [t]) texts.

(** The scripts of the scenarios. *)
Definition silent : list (Completion (list string)) := says [].
Definition plain : list (Completion (list string)) := says [answer].
Definition one_call : list (Completion (list string)) :=
  says [tool_call_text "get_weather"].
Definition call_then_answer : list (Completion (list string)) :=
  says [tool_call_text "get_weather"; answer].
Definition two_calls : list (Completion (list string)) :=
  says [tool_call_text "get_weather"; tool_call_text "get_weather"].
Definition unknown_call : list (Completion (list string)) :=
  says [tool_call_text "get_time"].
Definition crash_then_answer : list (Completion (list string)) :=
  says [tool_call_text "crash"; answer].
Definition known_then_unknown : list (Completion (list string)) :=
  says [tool_call_text "get_weather"; tool_call_text "get_time"; answer].

Definition crash_call : ToolCall.t :=
  {| ToolCall.toolName := "crash";
     ToolCall.arguments := JObject [];
     ToolCall.callId := Some "call_5" |}.

Definition weather_call : ToolCall.t :=
  {| ToolCall.toolName := "get_weather";
     ToolCall.arguments := JObject [];
     ToolCall.callId := Some "call_11" |}.

Definition weather_result : ToolResult.t :=
  {| ToolResult.toolName := "get_weather";
     ToolResult.success := true;
     ToolResult.result := Some (JObject [("temperature", JNumber (inject_Z 18))]);
     ToolResult.error := None;
     ToolResult.callId := Some "call_11" |}.

(** The completion and the trace of a run. *)
Definition outcome {RT : Runtime} {A : Type} (x : Completion A * Machine)
    : Completion A * list Event :=
  (fst x, trace (snd x)).

(** What a round parsed, and whether the tool it asks for is registered. *)
Definition round_view {RT : Runtime} (x : Completion ParsedOutput * Machine)
    : Completion ParsedOutput * option bool :=
  (fst x,
   match fst x with
   | Normal p =>
       option_map
         (fun call =>
            match assoc (ToolCall.toolName call) (registeredTools (snd x)) with
            | Some _ => true
            | None => false
            end)
         (toolCall p)
   | Abrupt _ => None
   end).

Definition with_options (maxToolCalls : Z) (autoExecute : bool)
    : option ToolCallingOptions.t :=
  Some {| ToolCallingOptions.tools := None;
          ToolCallingOptions.maxToolCalls := Some maxToolCalls;
          ToolCallingOptions.autoExecute := Some autoExecute;
          ToolCallingOptions.temperature := None;
          ToolCallingOptions.maxTokens := None;
          ToolCallingOptions.systemPrompt := None;
          ToolCallingOptions.replaceSystemPrompt := None;
          ToolCallingOptions.keepToolsAvailable := None;
          ToolCallingOptions.format := None |}.

End Demo.

(* ===================================================================== *)
(** ** Views of the registry and of the parse log *)
(* ===================================================================== *)

(** The calls among the parse steps of a run, in order. *)
Fixpoint calls_of (log : list (string * option ToolCall.t)) : list ToolCall.t :=
  match log with
  | [] => []
  | (_, Some call) :: rest => call :: calls_of rest
  | (_, None) :: rest => calls_of rest
  end.

Section Registry.

Context `{RT : Runtime}.

(** The keys of [registeredTools], in the order of the map. *)
Definition registered_names (m : Machine) : list string :=
  map fst (registeredTools m).

(** What [registerTool], [unregisterTool] and [clearTools] keep true of
    the map: no key twice, and every tool filed under its own name. *)
Definition registry_wf (m : Machine) : Prop :=
  NoDup (registered_names m) /\
  Forall (fun entry =>
            fst entry = ToolDefinition.name (RegisteredTool.definition (snd entry)))
         (registeredTools m).

(** The machine with another map. *)
Definition with_registry (m : Machine)
    (tools : list (string * RegisteredTool.t)) : Machine :=
  {| world := world m; registeredTools := tools; trace := trace m |}.

End Registry.

(* ===================================================================== *)
(** ** More of the scripted runtime *)
(* ===================================================================== *)

Module DemoMore.

Import Demo.

#[local] Open Scope string_scope.

Definition get_time : ToolDefinition.t :=
  {| ToolDefinition.name := "get_time";
     ToolDefinition.description := "Current time";
     ToolDefinition.parameters := [];
     ToolDefinition.category := Some "clock" |}.

(** An executor that reads the clock. *)
Definition clock (native : bool) (script : list (Completion (list string)))
    : @ToolExecutor (runtime native script) :=
  fun _ w => (Normal (JObject [("hour", JNumber (inject_Z 12))]), w).

(** Another executor for [get_weather]. *)
Definition warmer (native : bool) (script : list (Completion (list string)))
    : @ToolExecutor (runtime native script) :=
  fun _ w => (Normal (JObject [("temperature", JNumber (inject_Z 21))]), w).


(** What the bridge reports about the plain answer. *)
Definition answer_report : list (string * JSONValue) :=
  [("hasToolCall", JBool false); ("cleanText", JString answer)].

End DemoMore.

(* ===================================================================== *)
(** ** Traces *)
(* ===================================================================== *)

Create HintDb quiet.

Lemma generations_app (a b : list Event) :
  generations (a ++ b) = (generations a + generations b)%nat.
Proof. unfold generations. now rewrite filter_app, length_app. Qed.

Lemma executions_app (a b : list Event) :
  executions (a ++ b) = (executions a + executions b)%nat.
Proof. unfold executions. now rewrite filter_app, length_app. Qed.

Lemma parse_log_app (a b : list Event) :
  parse_log (a ++ b) = parse_log a ++ parse_log b.
Proof.
  induction a as [|e a IH]; simpl; [reflexivity|].
  destruct e; simpl; now rewrite IH.
Qed.

Lemma natives_only_nil : natives_only [].
Proof. constructor. Qed.

Lemma natives_only_one (method : string) : natives_only [EvNative method].
Proof. repeat constructor. Qed.

Lemma natives_only_app (a b : list Event) :
  natives_only a -> natives_only b -> natives_only (a ++ b).
Proof. unfold natives_only. intros. now apply Forall_app. Qed.

Lemma natives_generations (evs : list Event) :
  natives_only evs -> generations evs = 0%nat.
Proof.
  induction 1 as [|e evs He _ IH]; [reflexivity|].
  destruct e; try discriminate. exact IH.
Qed.

Lemma natives_executions (evs : list Event) :
  natives_only evs -> executions evs = 0%nat.
Proof.
  induction 1 as [|e evs He _ IH]; [reflexivity|].
  destruct e; try discriminate. exact IH.
Qed.

Lemma natives_parse_log (evs : list Event) :
  natives_only evs -> parse_log evs = [].
Proof.
  induction 1 as [|e evs He _ IH]; [reflexivity|].
  destruct e; try discriminate. exact IH.
Qed.

#[local] Hint Resolve natives_only_nil natives_only_one natives_only_app : quiet.

(** Appends to the right, conses pushed through. *)
Ltac norm_app := repeat (progress (simpl; rewrite <- ?app_assoc)).

Lemma generations_cons (e : Event) (l : list Event) :
  generations (e :: l) = ((if is_generate e then 1 else 0) + generations l)%nat.
Proof. unfold generations. simpl. now destruct (is_generate e). Qed.

Lemma executions_cons (e : Event) (l : list Event) :
  executions (e :: l) = ((if is_executor e then 1 else 0) + executions l)%nat.
Proof. unfold executions. simpl. now destruct (is_executor e). Qed.

Lemma execution_events_generations (c : ToolCall.t) (ex : list Event) :
  execution_events c ex -> generations ex = 0%nat.
Proof. now intros [-> | ->]. Qed.

Lemma execution_events_parse_log (c : ToolCall.t) (ex : list Event) :
  execution_events c ex -> parse_log ex = [].
Proof. now intros [-> | ->]. Qed.

(** Rewrites the counts and the parse log of a trace written with [++]
    and [::] into those of its unknown parts. *)
Ltac measure :=
  repeat first
    [ rewrite generations_app | rewrite executions_app | rewrite parse_log_app
    | rewrite generations_cons | rewrite executions_cons
    | match goal with
      | H : natives_only ?n |- context [generations ?n] =>
          rewrite (natives_generations n H)
      | H : natives_only ?n |- context [executions ?n] =>
          rewrite (natives_executions n H)
      | H : natives_only ?n |- context [parse_log ?n] =>
          rewrite (natives_parse_log n H)
      | H : execution_events ?c ?ex |- context [generations ?ex] =>
          rewrite (execution_events_generations c ex H)
      | H : execution_events ?c ?ex |- context [parse_log ?ex] =>
          rewrite (execution_events_parse_log c ex H)
      | |- context [generations []] => change (generations []) with 0%nat
      | |- context [executions []] => change (executions []) with 0%nat
      end
    | progress cbn [parse_log is_generate is_executor app length Nat.add] ].

Lemma last_cons {A : Type} (x d : A) (l : list A) :
  last (x :: l) d = last l x.
Proof.
  revert x d. induction l as [|y l IH]; intros x d; [reflexivity|].
  change (last (x :: y :: l) d) with (last (y :: l) d).
  now rewrite (IH y d), (IH y x).
Qed.

(* ===================================================================== *)
(** ** Quiet and safe computations *)
(* ===================================================================== *)

Section Quiet.

Context `{RT : Runtime}.

Notation "x <- c ;; k" := (bind c (fun x => k))
  (at level 61, c at next level, right associativity).

Lemma safe_quiet {A : Type} (c : M A) : safe c -> quiet c.
Proof.
  intros H m. destruct (H m) as (a & evs & m' & E & T & N & R).
  exists (Normal a), evs, m'. auto.
Qed.

Lemma safe_ret {A : Type} (a : A) : safe (ret a).
Proof.
  intros m. exists a, [], m. unfold ret.
  rewrite app_nil_r. auto with quiet.
Qed.

Lemma quiet_throw {A : Type} (e : Thrown) : quiet (@throw _ A e).
Proof.
  intros m. exists (Abrupt e), [], m. unfold throw.
  rewrite app_nil_r. auto with quiet.
Qed.

Lemma quiet_lift {A : Type} (c : Completion A) : quiet (lift c).
Proof.
  intros m. exists c, [], m. unfold lift.
  rewrite app_nil_r. auto with quiet.
Qed.

Lemma safe_observe {A : Type} (f : World -> A) : safe (observe f).
Proof.
  intros m. exists (f (world m)), [], m. unfold observe.
  rewrite app_nil_r. auto with quiet.
Qed.

Lemma quiet_attempt {A : Type} (f : World -> Completion A) : quiet (attempt f).
Proof.
  intros m. exists (f (world m)), [], m. unfold attempt.
  rewrite app_nil_r. auto with quiet.
Qed.

Lemma quiet_native {A : Type} (method : string)
    (f : World -> Completion A * World) :
  quiet (external (EvNative method) f).
Proof.
  intros m. unfold external. destruct (f (world m)) as [r w].
  eexists r, [EvNative method], _. simpl. auto with quiet.
Qed.

Lemma quiet_bind {A B : Type} (c : M A) (k : A -> M B) :
  quiet c -> (forall a, quiet (k a)) -> quiet (x <- c ;; k x).
Proof.
  intros Hc Hk m. unfold bind.
  destruct (Hc m) as (r & evs & m1 & E & T & N & R). rewrite E.
  destruct r as [a|e].
  - destruct (Hk a m1) as (r2 & evs2 & m2 & E2 & T2 & N2 & R2).
    exists r2, (evs ++ evs2), m2. rewrite E2, T2, T, R2, R, app_assoc.
    auto with quiet.
  - exists (Abrupt e), evs, m1. auto.
Qed.

Lemma safe_bind {A B : Type} (c : M A) (k : A -> M B) :
  safe c -> (forall a, safe (k a)) -> safe (x <- c ;; k x).
Proof.
  intros Hc Hk m. unfold bind.
  destruct (Hc m) as (a & evs & m1 & E & T & N & R). rewrite E.
  destruct (Hk a m1) as (b & evs2 & m2 & E2 & T2 & N2 & R2).
  exists b, (evs ++ evs2), m2. rewrite E2, T2, T, R2, R, app_assoc.
  auto with quiet.
Qed.

(** A handler that cannot fail makes the whole [try] safe. *)
Lemma safe_try_catch {A : Type} (body : M A) (handler : Thrown -> M A) :
  quiet body -> (forall e, safe (handler e)) -> safe (try_catch body handler).
Proof.
  intros Hb Hh m. unfold try_catch.
  destruct (Hb m) as (r & evs & m1 & E & T & N & R). rewrite E.
  destruct r as [a|e].
  - exists a, evs, m1. auto.
  - destruct (Hh e m1) as (b & evs2 & m2 & E2 & T2 & N2 & R2).
    exists b, (evs ++ evs2), m2. rewrite E2, T2, T, R2, R, app_assoc.
    auto with quiet.
Qed.

Lemma quiet_get_property (value : JSONValue) (key : string) :
  quiet (get_property value key).
Proof.
  destruct value; simpl;
    first [apply quiet_throw | apply safe_quiet, safe_ret].
Qed.

Lemma safe_getRegisteredTools : safe getRegisteredTools.
Proof.
  intros m. eexists _, [], m. unfold getRegisteredTools.
  rewrite app_nil_r. auto with quiet.
Qed.

Lemma safe_tools_or_registered (tools : option (list ToolDefinition.t)) :
  safe (tools_or_registered tools).
Proof.
  destruct tools; [apply safe_ret | apply safe_getRegisteredTools].
Qed.

(** One step of a proof that a computation is quiet or safe. *)
Ltac quiet_step :=
  match goal with
  | |- safe (ret _) => apply safe_ret
  | |- safe (observe _) => apply safe_observe
  | |- safe (try_catch _ _) => apply safe_try_catch; [|intros ?]
  | |- safe (bind _ _) => apply safe_bind; [|intros ?]
  | |- safe (if ?b then _ else _) => destruct b
  | |- quiet (throw _) => apply quiet_throw
  | |- quiet (lift _) => apply quiet_lift
  | |- quiet (attempt _) => apply quiet_attempt
  | |- quiet (external (EvNative _) _) => apply quiet_native
  | |- quiet (get_property _ _) => apply quiet_get_property
  | |- quiet (bind _ _) => apply quiet_bind; [|intros ?]
  | |- quiet (if ?b then _ else _) => destruct b
  | |- quiet (match ?x with _ => _ end) => destruct x
  | |- quiet (ret _) => apply safe_quiet, safe_ret
  | |- quiet (observe _) => apply safe_quiet, safe_observe
  end.

Lemma safe_parseToolCallViaCpp (llmOutput : string) :
  safe (parseToolCallViaCpp llmOutput).
Proof. unfold parseToolCallViaCpp. repeat quiet_step. Qed.

Lemma safe_formatToolsForPromptAsync (tools : option (list ToolDefinition.t))
    (format : option string) :
  safe (formatToolsForPromptAsync tools format).
Proof.
  unfold formatToolsForPromptAsync.
  apply safe_bind; [apply safe_tools_or_registered | intros toolsToFormat].
  repeat quiet_step.
Qed.

Lemma safe_buildInitialPromptViaCpp (userPrompt toolsJson : string)
    (options : option ToolCallingOptions.t) :
  safe (buildInitialPromptViaCpp userPrompt toolsJson options).
Proof. unfold buildInitialPromptViaCpp. repeat quiet_step. Qed.

Lemma safe_buildFollowupPromptViaCpp
    (originalPrompt toolsPrompt toolName resultJson : string) (keep : bool) :
  safe (buildFollowupPromptViaCpp originalPrompt toolsPrompt toolName resultJson keep).
Proof. unfold buildFollowupPromptViaCpp. repeat quiet_step. Qed.

(* ===================================================================== *)
(** ** One round of the loop *)
(* ===================================================================== *)

Lemma executeTool_ends (toolCall : ToolCall.t) (m : Machine) :
  exists r ex m',
    executeTool toolCall m = Some (Normal r, m') /\
    trace m' = trace m ++ ex /\
    execution_events toolCall ex /\
    answers r toolCall /\
    registeredTools m' = registeredTools m.
Proof.
  unfold executeTool, bind, registeredTools_get.
  destruct (assoc (ToolCall.toolName toolCall) (registeredTools m)) as [tool|].
  - unfold try_catch, bind, external.
    destruct (RegisteredTool.executor tool _ _) as [[result|e] w]; simpl;
      eexists _, [EvExecutor _ _], _;
      (split; [reflexivity|]); simpl; unfold execution_events, answers; auto.
  - eexists _, [], m. unfold ret. rewrite app_nil_r.
    split; [reflexivity|]. unfold execution_events, answers. simpl. auto.
Qed.

Section Round.

Variable prompt : string.
Variable options : option ToolCallingOptions.t.
Variable maxToolCalls : Z.
Variable autoExecute : bool.
Variable keepToolsAvailable : bool.
Variable toolsPrompt : string.

Lemma generate_and_parse_ends (v : LoopVars) (m : Machine) :
  (exists e m',
      generate_and_parse options v m = Some (Abrupt e, m') /\
      trace m' = trace m ++ [EvGenerate (fullPrompt v)] /\
      registeredTools m' = registeredTools m) \/
  (exists p ns m',
      generate_and_parse options v m = Some (Normal p, m') /\
      trace m' = trace m ++ EvGenerate (fullPrompt v) :: ns
                           ++ [EvParsed (text p) (toolCall p)] /\
      natives_only ns /\
      registeredTools m' = registeredTools m).
Proof.
  unfold generate_and_parse, bind, external.
  destruct (generateStream _ _ _) as [[tokens|e] w].
  - right.
    match goal with
    | |- context [parseToolCallViaCpp ?s ?m1] =>
        destruct (safe_parseToolCallViaCpp s m1) as (p & ns & m2 & E & T & N & R)
    end.
    rewrite E. unfold note, ret. simpl.
    eexists p, ns, _. split; [reflexivity|]. simpl.
    rewrite T, R. simpl. rewrite <- !app_assoc. simpl. auto.
  - left. eexists e, _. split; [reflexivity|]. simpl. auto.
Qed.

(** The step of the loop that a pass through its body amounts to. *)
Lemma loop_body_ends (v : LoopVars) (m : Machine) :
  exists step evs m',
    loop_body prompt options autoExecute keepToolsAvailable toolsPrompt v m
      = Some (step, m') /\
    trace m' = trace m ++ evs /\
    registeredTools m' = registeredTools m /\
    forall rest out,
      match step with
      | Normal (Continue v') =>
          iterations v' = iterations v + 1 /\
          (loop_run maxToolCalls autoExecute v' rest out ->
           iterations v < maxToolCalls ->
           loop_run maxToolCalls autoExecute v (evs ++ rest) out)
      | Normal (Break v') =>
          iterations v < maxToolCalls ->
          loop_run maxToolCalls autoExecute v evs (Normal (inl v'))
      | Normal (Return r) =>
          iterations v < maxToolCalls ->
          loop_run maxToolCalls autoExecute v evs (Normal (inr r))
      | Abrupt e =>
          iterations v < maxToolCalls ->
          loop_run maxToolCalls autoExecute v evs (Abrupt e)
      end.
Proof.
  unfold loop_body, bind at 1.
  destruct (generate_and_parse_ends v m)
    as [(e & m1 & E & T & R) | (p & ns & m1 & E & T & N & R)]; rewrite E.
  - exists (Abrupt e), [EvGenerate (fullPrompt v)], m1.
    split; [reflexivity|]. split; [exact T|]. split; [exact R|].
    intros _ _ Hlt. apply run_generation_fails; assumption.
  - destruct p as [t [c|]]; simpl in *.
    + destruct autoExecute eqn:Hauto; simpl.
      * unfold bind.
        destruct (executeTool_ends c m1) as (r & ex & m2 & E2 & T2 & X2 & A2 & R2).
        rewrite E2.
        match goal with
        | |- context [buildFollowupPromptViaCpp ?a ?b ?n ?j ?k ?mm] =>
            destruct (safe_buildFollowupPromptViaCpp a b n j k mm)
              as (fp & ns' & m3 & E3 & T3 & N3 & R3)
        end.
        rewrite E3. unfold ret.
        eexists _, (EvGenerate (fullPrompt v) :: ns ++ [EvParsed t (Some c)]
                     ++ ex ++ ns'), m3.
        split; [reflexivity|]. split; [|split].
        -- rewrite T3, T2, T. now norm_app.
        -- congruence.
        -- intros rest out. simpl. split; [reflexivity|]. intros Hrun Hlt.
           norm_app. eapply run_continue; eauto.
      * unfold ret. eexists _, _, m1. split; [reflexivity|].
        split; [exact T|]. split; [exact R|].
        intros _ _ Hlt. apply run_return; auto.
    + unfold ret. eexists _, _, m1. split; [reflexivity|].
      split; [exact T|]. split; [exact R|].
      intros _ _ Hlt. apply run_break; auto.
Qed.

(** With fuel for every remaining iteration the loop ends, and its events
    and exit form a run. *)
Lemma while_loop_runs (fuel : nat) :
  forall (v : LoopVars) (m : Machine),
    (Z.to_nat (maxToolCalls - iterations v) <= fuel)%nat ->
    exists out evs m',
      while_loop prompt options maxToolCalls autoExecute keepToolsAvailable
        toolsPrompt fuel v m = Some (out, m') /\
      trace m' = trace m ++ evs /\
      registeredTools m' = registeredTools m /\
      loop_run maxToolCalls autoExecute v evs out.
Proof.
  induction fuel as [|fuel IH]; intros v m Hfuel;
    cbn [while_loop]; destruct (Z.ltb_spec (iterations v) maxToolCalls) as [Hlt|Hge].
  - lia.
  - eexists _, [], m. unfold ret. rewrite app_nil_r. repeat split.
    now constructor.
  - unfold bind.
    destruct (loop_body_ends v m) as (step & evs & m1 & E & T & R & Hstep).
    rewrite E. destruct step as [[v'|v'|r]|e].
    + destruct (Hstep [] (Abrupt (ErrorObject EmptyString))) as [Hit _].
      destruct (IH v' m1) as (out & evs' & m2 & E2 & T2 & R2 & Hrun); [lia|].
      exists out, (evs ++ evs'), m2. rewrite E2, T2, T, R2, R, app_assoc.
      repeat split. now apply (Hstep evs' out).
    + unfold ret. eexists _, evs, m1. repeat split; auto.
      now apply (Hstep [] (Abrupt (ErrorObject EmptyString))).
    + unfold ret. eexists _, evs, m1. repeat split; auto.
      now apply (Hstep [] (Abrupt (ErrorObject EmptyString))).
    + eexists _, evs, m1. repeat split; auto.
      now apply (Hstep [] (Abrupt (ErrorObject EmptyString))).
  - eexists _, [], m. unfold ret. rewrite app_nil_r. repeat split.
    now constructor.
Qed.

End Round.

(** [generateWithTools] always ends: after the native calls of the prompt
    building come the events of a run of the loop, whose exit decides the
    result. *)
Lemma generateWithTools_runs (prompt : string)
    (options : option ToolCallingOptions.t) (m : Machine) :
  exists fullPrompt0 out ns evs m',
    generateWithTools prompt options m = Some (result_of_exit out, m') /\
    trace m' = trace m ++ ns ++ evs /\
    natives_only ns /\
    registeredTools m' = registeredTools m /\
    loop_run (nullish (opt options ToolCallingOptions.maxToolCalls) 5)
             (nullish (opt options ToolCallingOptions.autoExecute) true)
             (initial_vars fullPrompt0) evs out.
Proof.
  unfold generateWithTools, bind at 1.
  assert (Htools : safe (match opt options ToolCallingOptions.tools with
                         | Some given => ret given
                         | None => getRegisteredTools
                         end)).
  { destruct (opt options ToolCallingOptions.tools);
      [apply safe_ret | apply safe_getRegisteredTools]. }
  destruct (Htools m) as (tools & ns0 & m0 & E0 & T0 & N0 & R0). rewrite E0.
  unfold bind at 1.
  destruct (safe_buildInitialPromptViaCpp prompt (serializeTools tools) options m0)
    as (fullPrompt0 & ns1 & m1 & E1 & T1 & N1 & R1). rewrite E1.
  unfold bind at 1.
  assert (Hfmt : safe (if nullish (opt options ToolCallingOptions.keepToolsAvailable) false
                       then formatToolsForPromptAsync (Some tools)
                              (Some (or_string (opt options ToolCallingOptions.format)
                                       "default"%string))
                       else ret EmptyString)).
  { destruct (nullish _ false);
      [apply safe_formatToolsForPromptAsync | apply safe_ret]. }
  destruct (Hfmt m1) as (toolsPrompt & ns2 & m2 & E2 & T2 & N2 & R2). rewrite E2.
  unfold bind.
  destruct (while_loop_runs prompt options
              (nullish (opt options ToolCallingOptions.maxToolCalls) 5)
              (nullish (opt options ToolCallingOptions.autoExecute) true)
              (nullish (opt options ToolCallingOptions.keepToolsAvailable) false)
              toolsPrompt
              (Z.to_nat (nullish (opt options ToolCallingOptions.maxToolCalls) 5))
              (initial_vars fullPrompt0) m2)
    as (out & evs & m3 & E3 & T3 & R3 & Hrun).
  { simpl. rewrite Z.sub_0_r. lia. }
  unfold initial_vars in E3. rewrite E3.
  exists fullPrompt0, out, (ns0 ++ ns1 ++ ns2), evs, m3.
  split; [|split; [|split; [|split]]].
  - destruct out as [[v|r]|e]; reflexivity.
  - rewrite T3, T2, T1, T0. now rewrite <- !app_assoc.
  - auto with quiet.
  - congruence.
  - exact Hrun.
Qed.

(* ===================================================================== *)
(** ** What a run of the loop implies *)
(* ===================================================================== *)

Section Runs.

Variable maxToolCalls : Z.

(** The loop never generates more often than its budget allows. *)
Lemma loop_run_bounded (autoExecute : bool) (v : LoopVars)
    (evs : list Event) (out : Completion (LoopVars + ToolCallingResult.t)) :
  loop_run maxToolCalls autoExecute v evs out ->
  (generations evs <= Z.to_nat (maxToolCalls - iterations v))%nat.
Proof.
  induction 1; measure; simpl in *; lia.
Qed.

(** Without budget left the loop does nothing. *)
Lemma loop_run_no_budget (autoExecute : bool) (v : LoopVars)
    (evs : list Event) (out : Completion (LoopVars + ToolCallingResult.t)) :
  loop_run maxToolCalls autoExecute v evs out ->
  maxToolCalls <= iterations v ->
  evs = [] /\ out = Normal (inl v).
Proof.
  destruct 1; intros Hge; try lia. auto.
Qed.

(** When every round is parsed and every parse finds a call, automatic
    execution uses the whole budget and leaves by the loop test. *)
Lemma loop_run_exhausts (v : LoopVars)
    (evs : list Event) (out : Completion (LoopVars + ToolCallingResult.t)) :
  loop_run maxToolCalls true v evs out ->
  length (parse_log evs) = generations evs ->
  forallb has_call (parse_log evs) = true ->
  generations evs = Z.to_nat (maxToolCalls - iterations v) /\
  exists v',
    out = Normal (inl v') /\
    finalText v' = last (map fst (parse_log evs)) (finalText v).
Proof.
  induction 1 as [v Hge | v e Hlt | v ns t Hlt N | v ns t c Hlt Hauto N
                 | v ns t c r ex ns' fp evs out Hlt _ N A X N' Hrun IH];
    measure; intros Hlen Hall.
  - split; [lia|]. now exists v.
  - discriminate.
  - discriminate.
  - discriminate.
  - simpl in Hlen, Hall. destruct IH as (Hgen & v' & -> & Htext); [lia|exact Hall|].
    simpl in Hgen. split; [lia|].
    exists v'. split; [reflexivity|].
    simpl in Htext. cbn [map fst]. now rewrite last_cons.
Qed.

(** A first parse without a call ends the run there. *)
Lemma loop_run_plain_answer (autoExecute : bool) (v : LoopVars)
    (evs : list Event) (out : Completion (LoopVars + ToolCallingResult.t))
    (t : string) (rest : list (string * option ToolCall.t)) :
  loop_run maxToolCalls autoExecute v evs out ->
  parse_log evs = (t, None) :: rest ->
  out = Normal (inl {| fullPrompt := fullPrompt v;
                       allToolCalls := allToolCalls v;
                       allToolResults := allToolResults v;
                       finalText := t;
                       iterations := iterations v + 1 |}) /\
  generations evs = 1%nat /\ executions evs = 0%nat /\ rest = [].
Proof.
  destruct 1; measure; intros Hlog; try discriminate.
  injection Hlog as <- <-. auto.
Qed.

(** In manual mode nothing is executed, and a parse that finds a call is
    the last event of the run. *)
Lemma loop_run_manual (v : LoopVars)
    (evs : list Event) (out : Completion (LoopVars + ToolCallingResult.t)) :
  loop_run maxToolCalls false v evs out ->
  executions evs = 0%nat /\
  forall t c,
    In (t, Some c) (parse_log evs) ->
    out = Normal (inr {| ToolCallingResult.text := t;
                         ToolCallingResult.toolCalls := allToolCalls v ++ [c];
                         ToolCallingResult.toolResults := [];
                         ToolCallingResult.isComplete := false |}) /\
    generations evs = 1%nat /\
    exists before, evs = before ++ [EvParsed t (Some c)].
Proof.
  destruct 1 as [v Hge | v e Hlt | v ns t0 Hlt N | v ns t0 c0 Hlt Hauto N
                | v ns t0 c0 r ex ns' fp evs out Hlt Hauto N A X N' Hrun];
    try discriminate; measure; (split; [reflexivity|]); intros t c Hin;
    simpl in Hin; try tauto.
  - destruct Hin as [Hin|[]]. discriminate.
  - destruct Hin as [Hin|[]]. injection Hin as <- <-.
    repeat split. now exists (EvGenerate (fullPrompt v) :: ns).
Qed.

(** Calls and results stay paired through the loop. *)
Lemma loop_run_paired (autoExecute : bool) (v : LoopVars)
    (evs : list Event) (out : Completion (LoopVars + ToolCallingResult.t)) :
  loop_run maxToolCalls autoExecute v evs out ->
  Forall2 answers (allToolResults v) (allToolCalls v) ->
  forall v', out = Normal (inl v') ->
    Forall2 answers (allToolResults v') (allToolCalls v').
Proof.
  induction 1 as [v Hge | v e Hlt | v ns t Hlt N | v ns t c Hlt Hauto N
                 | v ns t c r ex ns' fp evs out Hlt _ N A X N' Hrun IH];
    intros Hpair v' Hout; try discriminate.
  - now injection Hout as <-.
  - now injection Hout as <-.
  - apply IH; [|exact Hout]. simpl.
    apply Forall2_app; [exact Hpair|]. constructor; [exact A|constructor].
Qed.

End Runs.

(** A result returned from inside the loop is never complete. *)
Lemma loop_run_returned (maxToolCalls : Z) (autoExecute : bool) (v : LoopVars)
    (evs : list Event) (out : Completion (LoopVars + ToolCallingResult.t)) :
  loop_run maxToolCalls autoExecute v evs out ->
  forall r, out = Normal (inr r) -> ToolCallingResult.isComplete r = false.
Proof.
  induction 1; intros r0 Hout; try discriminate; auto.
  now injection Hout as <-.
Qed.

Lemma Forall2_nth_error {A B : Type} (R : A -> B -> Prop)
    (l1 : list A) (l2 : list B) :
  Forall2 R l1 l2 ->
  forall i a b, nth_error l1 i = Some a -> nth_error l2 i = Some b -> R a b.
Proof.
  induction 1 as [|x y l1 l2 Hxy _ IH]; intros [|i] a b Ha Hb;
    simpl in *; try discriminate.
  - congruence.
  - eauto.
Qed.

(** With no budget [generateWithTools] builds its prompts and returns the
    empty result. *)
Lemma zero_budget (prompt : string) (options : option ToolCallingOptions.t)
    (m : Machine) :
  nullish (opt options ToolCallingOptions.maxToolCalls) 5 <= 0 ->
  exists ns m',
    generateWithTools prompt options m
      = Some (Normal {| ToolCallingResult.text := EmptyString;
                        ToolCallingResult.toolCalls := [];
                        ToolCallingResult.toolResults := [];
                        ToolCallingResult.isComplete := true |}, m') /\
    trace m' = trace m ++ ns /\
    natives_only ns.
Proof.
  intros Hmax.
  destruct (generateWithTools_runs prompt options m)
    as (fp0 & out & ns & evs & m' & E & T & N & _ & Hrun).
  apply loop_run_no_budget in Hrun; [|exact Hmax].
  destruct Hrun as [-> ->]. rewrite app_nil_r in T.
  exists ns, m'. auto.
Qed.

(** Whatever [executeTool] returns for the call of a round, success or
    failure, goes into the follow-up prompt the same way, and the loop goes
    on to its next test. *)
Lemma loop_body_continues (prompt : string) (options : option ToolCallingOptions.t)
    (keepToolsAvailable : bool) (toolsPrompt : string)
    (v : LoopVars) (m0 m1 m2 : Machine) (p : ParsedOutput)
    (call : ToolCall.t) (r : ToolResult.t) :
  generate_and_parse options v m0 = Some (Normal p, m1) ->
  toolCall p = Some call ->
  executeTool call m1 = Some (Normal r, m2) ->
  exists fp m3,
    buildFollowupPromptViaCpp prompt toolsPrompt (ToolCall.toolName call)
      (stringify (resultData r)) keepToolsAvailable m2 = Some (Normal fp, m3) /\
    executions (trace m3) = executions (trace m2) /\
    loop_body prompt options true keepToolsAvailable toolsPrompt v m0
      = Some (Normal (Continue {| fullPrompt := fp;
                                  allToolCalls := allToolCalls v ++ [call];
                                  allToolResults := allToolResults v ++ [r];
                                  finalText := text p;
                                  iterations := iterations v + 1 |}), m3).
Proof.
  intros Hgp Hcall Hexec.
  destruct (safe_buildFollowupPromptViaCpp prompt toolsPrompt
              (ToolCall.toolName call) (stringify (resultData r))
              keepToolsAvailable m2) as (fp & ns & m3 & E & T & N & _).
  exists fp, m3. split; [exact E|]. split.
  - rewrite T. now measure.
  - unfold loop_body, bind at 1. rewrite Hgp, Hcall. simpl.
    unfold bind. rewrite Hexec, E. reflexivity.
Qed.

End Quiet.

(* ===================================================================== *)
(** ** The orchestration loop *)
(* ===================================================================== *)

Section Orchestration.

Context `{RT : Runtime}.

(** C1, as amended.  With [maxToolCalls = 0] the test of the loop fails at
    once: [generateWithTools] runs no generation and no executor, whatever
    the model would have answered, and returns the empty text, no calls, no
    results and [isComplete = true]. *)
Theorem generateWithTools_zero_budget (prompt : string)
    (options : option ToolCallingOptions.t) (m : Machine) :
  opt options ToolCallingOptions.maxToolCalls = Some 0 ->
  exists evs m',
    generateWithTools prompt options m
      = Some (Normal {| ToolCallingResult.text := EmptyString;
                        ToolCallingResult.toolCalls := [];
                        ToolCallingResult.toolResults := [];
                        ToolCallingResult.isComplete := true |}, m') /\
    trace m' = trace m ++ evs /\
    generations evs = 0%nat /\
    executions evs = 0%nat.
Proof.
  intros Hzero.
  destruct (zero_budget prompt options m) as (ns & m' & E & T & N).
  { rewrite Hzero. simpl. lia. }
  exists ns, m'. repeat split; auto.
  - now apply natives_generations.
  - now apply natives_executions.
Qed.

(** C2.  Every run ends, and never generates more than [maxToolCalls]
    times.  With automatic execution, when every generation gives an
    output and every output parses to a tool call, the run generates
    exactly [maxToolCalls] times and then returns normally, with
    [isComplete = true] and the clean text of the last parse (the empty
    text when there was none). *)
Theorem generateWithTools_exhausts_budget (prompt : string)
    (options : option ToolCallingOptions.t) (m : Machine) :
  let maxToolCalls := nullish (opt options ToolCallingOptions.maxToolCalls) 5 in
  0 <= maxToolCalls ->
  exists out evs m',
    generateWithTools prompt options m = Some (out, m') /\
    trace m' = trace m ++ evs /\
    Z.of_nat (generations evs) <= maxToolCalls /\
    (nullish (opt options ToolCallingOptions.autoExecute) true = true ->
     length (parse_log evs) = generations evs ->
     forallb has_call (parse_log evs) = true ->
     Z.of_nat (generations evs) = maxToolCalls /\
     exists r,
       out = Normal r /\
       ToolCallingResult.isComplete r = true /\
       ToolCallingResult.text r = last_text (parse_log evs)).
Proof.
  intros maxToolCalls Hmax.
  destruct (generateWithTools_runs prompt options m)
    as (fp0 & out & ns & evs & m' & E & T & N & _ & Hrun).
  fold maxToolCalls in Hrun.
  exists (result_of_exit out), (ns ++ evs), m'.
  split; [exact E|]. split; [exact T|]. measure. split.
  - apply loop_run_bounded in Hrun. simpl in Hrun. lia.
  - intros Hauto Hlen Hall. rewrite Hauto in Hrun.
    destruct (loop_run_exhausts _ _ _ _ Hrun Hlen Hall) as (Hgen & v' & -> & Htext).
    simpl in Hgen. split; [lia|].
    eexists. split; [reflexivity|]. split; [reflexivity|]. exact Htext.
Qed.

(** C3.  With [maxToolCalls >= 1], a run whose first output parses to no
    tool call ends there: one generation, no executor, and the result has
    the parsed clean text, no calls, no results and [isComplete = true]. *)
Theorem generateWithTools_plain_answer (prompt : string)
    (options : option ToolCallingOptions.t) (m : Machine) :
  1 <= nullish (opt options ToolCallingOptions.maxToolCalls) 5 ->
  exists out evs m',
    generateWithTools prompt options m = Some (out, m') /\
    trace m' = trace m ++ evs /\
    forall cleanText rest,
      parse_log evs = (cleanText, None) :: rest ->
      out = Normal {| ToolCallingResult.text := cleanText;
                      ToolCallingResult.toolCalls := [];
                      ToolCallingResult.toolResults := [];
                      ToolCallingResult.isComplete := true |} /\
      generations evs = 1%nat /\
      executions evs = 0%nat.
Proof.
  intros _.
  destruct (generateWithTools_runs prompt options m)
    as (fp0 & out & ns & evs & m' & E & T & N & _ & Hrun).
  exists (result_of_exit out), (ns ++ evs), m'.
  split; [exact E|]. split; [exact T|].
  intros cleanText rest. measure. intros Hlog.
  destruct (loop_run_plain_answer _ _ _ _ _ _ _ Hrun Hlog) as (-> & Hgen & Hex & _).
  auto.
Qed.

(** C4.  With [autoExecute = false] no executor is ever invoked, and a
    parse that finds a tool call ends the run: the call is the only one in
    [toolCalls], [toolResults] is empty, [isComplete] is [false], exactly
    one generation was made, and the parse is the last event of the run. *)
Theorem generateWithTools_manual_mode (prompt : string)
    (options : option ToolCallingOptions.t) (m : Machine) :
  opt options ToolCallingOptions.autoExecute = Some false ->
  exists out evs m',
    generateWithTools prompt options m = Some (out, m') /\
    trace m' = trace m ++ evs /\
    executions evs = 0%nat /\
    forall cleanText call,
      In (cleanText, Some call) (parse_log evs) ->
      out = Normal {| ToolCallingResult.text := cleanText;
                      ToolCallingResult.toolCalls := [call];
                      ToolCallingResult.toolResults := [];
                      ToolCallingResult.isComplete := false |} /\
      generations evs = 1%nat /\
      exists before, evs = before ++ [EvParsed cleanText (Some call)].
Proof.
  intros Hmanual.
  destruct (generateWithTools_runs prompt options m)
    as (fp0 & out & ns & evs & m' & E & T & N & _ & Hrun).
  rewrite Hmanual in Hrun. simpl in Hrun.
  destruct (loop_run_manual _ _ _ _ Hrun) as [Hex Hcall].
  exists (result_of_exit out), (ns ++ evs), m'.
  split; [exact E|]. split; [exact T|]. measure. split; [exact Hex|].
  intros cleanText call Hin.
  destruct (Hcall cleanText call Hin) as (-> & Hgen & before & ->).
  repeat split; auto.
  exists (ns ++ before). now rewrite app_assoc.
Qed.

End Orchestration.

(* ===================================================================== *)
(** ** Tool execution, parsing, formatting, resuming *)
(* ===================================================================== *)

Section Tools.

Context `{RT : Runtime}.

(** C5.  For a call whose tool name is not in the registry, [executeTool]
    returns a failed result whose error is ["Unknown tool: "] followed by
    the name, and leaves the machine as it was: no executor is invoked.
    When the call was parsed in a round of the loop with automatic
    execution, the round ends normally: the failed result is appended to
    the results, the follow-up prompt is built from the error, and the
    loop goes on to its next test. *)
Theorem executeTool_unknown_tool (call : ToolCall.t) (m : Machine) :
  assoc (ToolCall.toolName call) (registeredTools m) = None ->
  let failed :=
    {| ToolResult.toolName := ToolCall.toolName call;
       ToolResult.success := false;
       ToolResult.result := None;
       ToolResult.error := Some ("Unknown tool: " ++ ToolCall.toolName call)%string;
       ToolResult.callId := ToolCall.callId call |} in
  executeTool call m = Some (Normal failed, m) /\
  forall prompt options keepToolsAvailable toolsPrompt v m0 p,
    generate_and_parse options v m0 = Some (Normal p, m) ->
    toolCall p = Some call ->
    exists fp m',
      buildFollowupPromptViaCpp prompt toolsPrompt (ToolCall.toolName call)
        (JSON_stringify
           (JObject [("error"%string,
                      JString ("Unknown tool: " ++ ToolCall.toolName call)%string)]))
        keepToolsAvailable m = Some (Normal fp, m') /\
      executions (trace m') = executions (trace m) /\
      loop_body prompt options true keepToolsAvailable toolsPrompt v m0
        = Some (Normal (Continue {| fullPrompt := fp;
                                    allToolCalls := allToolCalls v ++ [call];
                                    allToolResults := allToolResults v ++ [failed];
                                    finalText := text p;
                                    iterations := iterations v + 1 |}), m').
Proof.
  intros Hnone failed.
  assert (Hexec : executeTool call m = Some (Normal failed, m)).
  { unfold executeTool, bind, registeredTools_get. now rewrite Hnone. }
  split; [exact Hexec|].
  intros prompt options keepToolsAvailable toolsPrompt v m0 p Hgp Hcall.
  exact (loop_body_continues prompt options keepToolsAvailable toolsPrompt
           v m0 m m p call failed Hgp Hcall Hexec).
Qed.

(** C6.  When the executor registered for a call throws, [executeTool]
    does not throw: it returns a failed result that carries the message of
    the exception.  In a round of the loop with automatic execution the
    result of [executeTool], failed or not, is appended to the results and
    serialized into the follow-up prompt by the same code, and the loop
    goes on to its next test; for the failed result what is serialized is
    the object [{ error: message }]. *)
Theorem executeTool_executor_failure (call : ToolCall.t) (m : Machine)
    (tool : RegisteredTool.t) (e : Thrown) (w : World) :
  assoc (ToolCall.toolName call) (registeredTools m) = Some tool ->
  RegisteredTool.executor tool (ToolCall.arguments call) (world m) = (Abrupt e, w) ->
  let failed :=
    {| ToolResult.toolName := ToolCall.toolName call;
       ToolResult.success := false;
       ToolResult.result := None;
       ToolResult.error := Some (errorMessage_of e);
       ToolResult.callId := ToolCall.callId call |} in
  executeTool call m
    = Some (Normal failed,
            {| world := w;
               registeredTools := registeredTools m;
               trace := trace m ++ [EvExecutor (ToolCall.toolName call)
                                               (ToolCall.arguments call)] |}) /\
  resultData failed = Some (JObject [("error"%string, JString (errorMessage_of e))]) /\
  forall prompt options keepToolsAvailable toolsPrompt v m0 p r m2,
    generate_and_parse options v m0 = Some (Normal p, m) ->
    toolCall p = Some call ->
    executeTool call m = Some (Normal r, m2) ->
    exists fp m',
      buildFollowupPromptViaCpp prompt toolsPrompt (ToolCall.toolName call)
        (stringify (resultData r)) keepToolsAvailable m2 = Some (Normal fp, m') /\
      loop_body prompt options true keepToolsAvailable toolsPrompt v m0
        = Some (Normal (Continue {| fullPrompt := fp;
                                    allToolCalls := allToolCalls v ++ [call];
                                    allToolResults := allToolResults v ++ [r];
                                    finalText := text p;
                                    iterations := iterations v + 1 |}), m').
Proof.
  intros Htool Hthrows failed. split; [|split].
  - unfold executeTool, bind, registeredTools_get. rewrite Htool.
    unfold try_catch, bind, external. now rewrite Hthrows.
  - reflexivity.
  - intros prompt options keepToolsAvailable toolsPrompt v m0 p r m2 Hgp Hcall Hexec.
    destruct (loop_body_continues prompt options keepToolsAvailable toolsPrompt
                v m0 m m2 p call r Hgp Hcall Hexec) as (fp & m' & E & _ & Hloop).
    now exists fp, m'.
Qed.

(** C7.  The parse step always returns normally, whatever the output and
    the machine; and when it fails (no native module, the native parser
    throws, its answer or the arguments in it are not JSON) it returns the
    raw output as the text and no tool call. *)
Theorem parseToolCallViaCpp_never_throws (llmOutput : string) (m : Machine) :
  (exists p m', parseToolCallViaCpp llmOutput m = Some (Normal p, m')) /\
  (parse_failure llmOutput m ->
   exists m',
     parseToolCallViaCpp llmOutput m
       = Some (Normal {| text := llmOutput; toolCall := None |}, m')).
Proof.
  split.
  - destruct (safe_parseToolCallViaCpp llmOutput m) as (p & _ & m' & E & _).
    now exists p, m'.
  - intros F. unfold parseToolCallViaCpp, bind at 1, observe.
    destruct F as [Hoff | e Hon Hreq | e w Hon Hnative | resultJson w e Hon Hnative Hjson
                  | resultJson w Hon Hnative Hjson
                  | resultJson w fields argumentsJson e Hon Hnative Hjson Hhas Hargs Hne Hbad];
      try (rewrite Hoff); try (rewrite Hon); simpl;
      [ eexists; reflexivity | .. ];
      unfold try_catch, bind, attempt, external, lift;
      destruct (requireNativeModule (world m)) as [[]|e0] eqn:Hreq';
      try (eexists; reflexivity); try discriminate;
      rewrite Hnative; try (eexists; reflexivity);
      rewrite Hjson; try (eexists; reflexivity).
    simpl. unfold ret. rewrite Hhas, Hargs. simpl.
    destruct (String.eqb_spec argumentsJson EmptyString) as [|_]; [contradiction|].
    simpl. rewrite Hbad. eexists; reflexivity.
Qed.

(** C8.  When the list of tools to format is empty (the list given, or the
    registered tools when none is given), both formatters return the empty
    string, and neither calls the native module. *)
Theorem formatToolsForPrompt_empty (tools : option (list ToolDefinition.t))
    (format : option string) (m : Machine) :
  match tools with
  | Some given => given
  | None => map (fun t => RegisteredTool.definition (snd t)) (registeredTools m)
  end = [] ->
  formatToolsForPrompt tools format m = Some (Normal EmptyString, m) /\
  formatToolsForPromptAsync tools format m = Some (Normal EmptyString, m).
Proof.
  intros Hempty.
  unfold formatToolsForPrompt, formatToolsForPromptAsync, bind,
    tools_or_registered, getRegisteredTools, ret.
  destruct tools as [given|]; rewrite Hempty; split; reflexivity.
Qed.

(** C9.  In every complete result of [generateWithTools] the calls and the
    results have the same length, and the result at each index carries the
    tool name and the call id of the call at that index. *)
Theorem generateWithTools_calls_paired (prompt : string)
    (options : option ToolCallingOptions.t) (m m' : Machine)
    (r : ToolCallingResult.t) :
  generateWithTools prompt options m = Some (Normal r, m') ->
  ToolCallingResult.isComplete r = true ->
  length (ToolCallingResult.toolCalls r) = length (ToolCallingResult.toolResults r) /\
  forall i call result,
    nth_error (ToolCallingResult.toolCalls r) i = Some call ->
    nth_error (ToolCallingResult.toolResults r) i = Some result ->
    ToolResult.toolName result = ToolCall.toolName call /\
    ToolResult.callId result = ToolCall.callId call.
Proof.
  intros Hrun Hcomplete.
  destruct (generateWithTools_runs prompt options m)
    as (fp0 & out & ns & evs & m1 & E & _ & _ & _ & Hloop).
  rewrite Hrun in E. injection E as Hout _.
  destruct out as [[v'|returned]|e]; simpl in Hout; try discriminate.
  - injection Hout as ->. simpl.
    assert (Hpair : Forall2 answers (allToolResults v') (allToolCalls v')).
    { eapply loop_run_paired; [exact Hloop | constructor | reflexivity]. }
    split.
    + symmetry. exact (Forall2_length Hpair).
    + intros i call result Hc Hr.
      exact (Forall2_nth_error answers _ _ Hpair i result call Hr Hc).
  - injection Hout as ->.
    rewrite (loop_run_returned _ _ _ _ _ Hloop returned eq_refl) in Hcomplete.
    discriminate.
Qed.

(** C10.  [continueWithToolResult] is [generateWithTools] on the continued
    prompt with the caller's options and [maxToolCalls] one less than the
    caller's value, 5 when there is none (so 4).  When that value is at
    most 1 the resumed run generates nothing and returns the empty text,
    no calls, no results and [isComplete = true]. *)
Theorem continueWithToolResult_budget (previousPrompt : string)
    (call : ToolCall.t) (toolResult : ToolResult.t)
    (options : option ToolCallingOptions.t) (m : Machine) :
  let given := nullish (opt options ToolCallingOptions.maxToolCalls) 5 in
  let resumed := with_maxToolCalls options (given - 1) in
  continueWithToolResult previousPrompt call toolResult options m
    = generateWithTools (continuedPrompt_of previousPrompt call toolResult)
        (Some resumed) m /\
  ToolCallingOptions.maxToolCalls resumed = Some (given - 1) /\
  (opt options ToolCallingOptions.maxToolCalls = None ->
   ToolCallingOptions.maxToolCalls resumed = Some 4) /\
  (given <= 1 ->
   exists evs m',
     continueWithToolResult previousPrompt call toolResult options m
       = Some (Normal {| ToolCallingResult.text := EmptyString;
                         ToolCallingResult.toolCalls := [];
                         ToolCallingResult.toolResults := [];
                         ToolCallingResult.isComplete := true |}, m') /\
     trace m' = trace m ++ evs /\
     generations evs = 0%nat).
Proof.
  intros given resumed. split; [reflexivity|]. split; [reflexivity|]. split.
  - intros Hnone. unfold resumed, given. now rewrite Hnone.
  - intros Hle. unfold continueWithToolResult.
    destruct (zero_budget (continuedPrompt_of previousPrompt call toolResult)
                (Some resumed) m) as (ns & m' & E & T & N).
    { simpl. fold given. lia. }
    exists ns, m'. repeat split; auto. now apply natives_generations.
Qed.

End Tools.

(* ===================================================================== *)
(** ** The theorems at work on the scripted runtime *)
(* ===================================================================== *)

Module Scenarios.

Import Demo.

#[local] Open Scope string_scope.

(** [observe_run E f H], for [E : c = x] with [c] a closed run: computes
    what [f] shows of the end of [c] and adds the equation, read through
    [E], as [H]. *)
Ltac observe_run E f H :=
  lazymatch type of E with
  | ?c = _ =>
      let v := eval vm_compute in (option_map f c) in
      assert (H : option_map f c = v) by (vm_compute; reflexivity);
      rewrite E in H; cbn beta iota delta [option_map fst snd] in H
  end.

(** The scenario of the specification: [get_weather] is registered, the
    model first asks for it and then answers in plain text. *)
Example weather_scenario :
  exists r m',
    @generateWithTools (runtime true call_then_answer) "Weather in SF?"
      (with_options 3 true) (start true call_then_answer) = Some (Normal r, m') /\
    ToolCallingResult.text r = answer /\
    length (ToolCallingResult.toolCalls r) = 1%nat /\
    length (ToolCallingResult.toolResults r) = 1%nat /\
    ToolCallingResult.isComplete r = true /\
    generations (trace m') = 2%nat.
Proof.
  destruct (@generateWithTools (runtime true call_then_answer) "Weather in SF?"
              (with_options 3 true) (start true call_then_answer)) as [[out m']|] eqn:E.
  - observe_run E (@outcome (runtime true call_then_answer) ToolCallingResult.t) Hobs.
    injection Hobs as -> Htrace.
    eexists _, m'. split; [reflexivity|]. rewrite Htrace. repeat split.
  - observe_run E (@outcome (runtime true call_then_answer) ToolCallingResult.t) Hobs.
    discriminate Hobs.
Qed.

(** C1, the claim as stated fails.  The model would answer with a
    well-formed call of a registered tool, which the parse step
    recognizes; with [maxToolCalls = 0] there is no run with one
    generation and the call recorded. *)
Lemma generateWithTools_zero_budget_counterexample :
  (exists call m1,
      @parseToolCallViaCpp (runtime true one_call) (tool_call_text "get_weather")
        (start true one_call)
        = Some (Normal {| text := EmptyString; toolCall := Some call |}, m1)) /\
  ~ (exists r m',
        @generateWithTools (runtime true one_call) "Weather in SF?"
          (with_options 0 true) (start true one_call) = Some (Normal r, m') /\
        generations (trace m') = 1%nat /\
        ToolCallingResult.isComplete r = true /\
        exists call, ToolCallingResult.toolCalls r = [call]).
Proof.
  split.
  - destruct (@parseToolCallViaCpp (runtime true one_call)
                (tool_call_text "get_weather") (start true one_call))
      as [[p m1]|] eqn:E;
      observe_run E (@outcome (runtime true one_call) ParsedOutput) Hobs;
      [|discriminate Hobs].
    injection Hobs as -> _. now eexists _, m1.
  - intros (r & m' & Hrun & Hgen & _).
    observe_run Hrun (@outcome (runtime true one_call) ToolCallingResult.t) Hobs.
    injection Hobs as _ Htrace. rewrite Htrace in Hgen. discriminate Hgen.
Qed.

Lemma generateWithTools_zero_budget_witness :
  exists evs m',
    @generateWithTools (runtime true one_call) "Weather in SF?"
      (with_options 0 true) (start true one_call)
      = Some (Normal {| ToolCallingResult.text := EmptyString;
                        ToolCallingResult.toolCalls := [];
                        ToolCallingResult.toolResults := [];
                        ToolCallingResult.isComplete := true |}, m') /\
    trace m' = (trace (start true one_call) ++ evs)%list /\
    generations evs = 0%nat /\
    executions evs = 0%nat.
Proof.
  apply (@generateWithTools_zero_budget (runtime true one_call)).
  reflexivity.
Defined.

(** Two rounds, two calls, budget two: the budget is used up. *)
Lemma generateWithTools_exhausts_budget_witness :
  exists r m',
    @generateWithTools (runtime true two_calls) "Weather in SF?"
      (with_options 2 true) (start true two_calls) = Some (Normal r, m') /\
    ToolCallingResult.isComplete r = true /\
    ToolCallingResult.text r = EmptyString /\
    generations (trace m') = 2%nat.
Proof.
  destruct (@generateWithTools_exhausts_budget (runtime true two_calls)
              "Weather in SF?" (with_options 2 true) (start true two_calls))
    as (out & evs & m' & E & T & Hle & Hall).
  { simpl. lia. }
  observe_run E (@outcome (runtime true two_calls) ToolCallingResult.t) Hobs.
  injection Hobs as _ Htrace.
  change (trace (start true two_calls) ++ evs)%list with evs in T.
  rewrite Htrace in T. subst evs.
  destruct Hall as (Hgen & r & -> & Hcomplete & Htext);
    [reflexivity | reflexivity | reflexivity |].
  exists r, m'. split; [exact E|].
  split; [exact Hcomplete|]. split; [exact Htext|].
  rewrite Htrace. reflexivity.
Defined.

Lemma generateWithTools_plain_answer_witness :
  exists m',
    @generateWithTools (runtime true plain) "Weather in SF?"
      (with_options 3 true) (start true plain)
      = Some (Normal {| ToolCallingResult.text := answer;
                        ToolCallingResult.toolCalls := [];
                        ToolCallingResult.toolResults := [];
                        ToolCallingResult.isComplete := true |}, m') /\
    generations (trace m') = 1%nat.
Proof.
  destruct (@generateWithTools_plain_answer (runtime true plain)
              "Weather in SF?" (with_options 3 true) (start true plain))
    as (out & evs & m' & E & T & Hplain).
  { simpl. lia. }
  observe_run E (@outcome (runtime true plain) ToolCallingResult.t) Hobs.
  injection Hobs as _ Htrace.
  change (trace (start true plain) ++ evs)%list with evs in T.
  rewrite Htrace in T. subst evs.
  destruct (Hplain answer []) as (-> & Hgen & _); [reflexivity|].
  exists m'. split; [exact E|]. rewrite Htrace. exact Hgen.
Defined.

Lemma generateWithTools_manual_mode_witness :
  exists call m',
    @generateWithTools (runtime true one_call) "Weather in SF?"
      (with_options 3 false) (start true one_call)
      = Some (Normal {| ToolCallingResult.text := EmptyString;
                        ToolCallingResult.toolCalls := [call];
                        ToolCallingResult.toolResults := [];
                        ToolCallingResult.isComplete := false |}, m') /\
    ToolCall.toolName call = "get_weather" /\
    generations (trace m') = 1%nat /\
    executions (trace m') = 0%nat.
Proof.
  destruct (@generateWithTools_manual_mode (runtime true one_call)
              "Weather in SF?" (with_options 3 false) (start true one_call))
    as (out & evs & m' & E & T & Hex & Hcall).
  { reflexivity. }
  observe_run E (@outcome (runtime true one_call) ToolCallingResult.t) Hobs.
  injection Hobs as _ Htrace.
  change (trace (start true one_call) ++ evs)%list with evs in T.
  rewrite Htrace in T. subst evs.
  edestruct Hcall as (Hout & Hgen & Hlast); [left; reflexivity|].
  rewrite Hout in E.
  eexists _, m'. split; [exact E|]. split; [reflexivity|].
  rewrite Htrace. split; [exact Hgen | exact Hex].
Defined.

(** The model asks for [get_time], which nobody registered. *)
Lemma executeTool_unknown_tool_witness :
  exists v' m',
    @loop_body (runtime true unknown_call) "What time is it?" None true false EmptyString
      (initial_vars "What time is it?") (start true unknown_call)
      = Some (Normal (Continue v'), m') /\
    map ToolResult.error (allToolResults v') = [Some "Unknown tool: get_time"].
Proof.
  destruct (@generate_and_parse (runtime true unknown_call) None
              (initial_vars "What time is it?") (start true unknown_call))
    as [[out m1]|] eqn:Hgp;
    observe_run Hgp (@round_view (runtime true unknown_call)) Hobs;
    [|discriminate Hobs].
  unfold round_view in Hobs. cbn [fst snd] in Hobs.
  injection Hobs as Hout Hregistered. subst out.
  cbn [toolCall option_map ToolCall.toolName] in Hregistered.
  match type of Hgp with
  | _ = Some (Normal {| text := _; toolCall := Some ?call |}, _) =>
      destruct (@executeTool_unknown_tool (runtime true unknown_call) call m1)
        as [Hexec Hloop]
  end.
  { cbn [ToolCall.toolName].
    destruct (assoc "get_time" (registeredTools m1)); [discriminate|reflexivity]. }
  edestruct (Hloop "What time is it?" None false EmptyString)
    as (fp & m' & Hfp & Hexecs & Hbody); [exact Hgp | reflexivity |].
  eexists _, m'. split; [exact Hbody|]. reflexivity.
Defined.

(** The model asks for [crash], whose executor throws. *)
Lemma executeTool_executor_failure_witness :
  exists m',
    @executeTool (runtime true silent) crash_call (start true silent)
      = Some (Normal {| ToolResult.toolName := "crash";
                        ToolResult.success := false;
                        ToolResult.result := None;
                        ToolResult.error := Some "sensor offline";
                        ToolResult.callId := Some "call_5" |}, m') /\
    executions (trace m') = 1%nat.
Proof.
  edestruct (@executeTool_executor_failure (runtime true silent) crash_call
               (start true silent)) as (Hexec & _).
  { reflexivity. }
  { reflexivity. }
  eexists. split; [exact Hexec|]. reflexivity.
Defined.

(** The same call inside the loop: the failure becomes a result and the
    loop goes on. *)
Example crash_scenario :
  exists r m',
    @generateWithTools (runtime true crash_then_answer) "Break it"
      (with_options 3 true) (start true crash_then_answer) = Some (Normal r, m') /\
    ToolCallingResult.text r = answer /\
    map ToolResult.error (ToolCallingResult.toolResults r) = [Some "sensor offline"] /\
    ToolCallingResult.isComplete r = true /\
    generations (trace m') = 2%nat.
Proof.
  destruct (@generateWithTools (runtime true crash_then_answer) "Break it"
              (with_options 3 true) (start true crash_then_answer)) as [[out m']|] eqn:E;
    observe_run E (@outcome (runtime true crash_then_answer) ToolCallingResult.t) Hobs;
    [|discriminate Hobs].
  injection Hobs as -> Htrace.
  eexists _, m'. split; [reflexivity|]. rewrite Htrace. repeat split.
Qed.

(** Without the native module the raw text comes back, even when it is a
    well-formed call. *)
Lemma parseToolCallViaCpp_never_throws_witness :
  exists m',
    @parseToolCallViaCpp (runtime false silent) (tool_call_text "get_weather")
      (start false silent)
      = Some (Normal {| text := tool_call_text "get_weather"; toolCall := None |}, m').
Proof.
  apply (@parseToolCallViaCpp_never_throws (runtime false silent)).
  apply native_unavailable. reflexivity.
Defined.

(** Arguments that are not JSON make the whole parse fall back. *)
Example garbled_arguments_fall_back :
  exists m',
    @parseToolCallViaCpp (runtime true silent) (tool_call_text "garbled")
      (start true silent)
      = Some (Normal {| text := tool_call_text "garbled"; toolCall := None |}, m').
Proof.
  destruct (@parseToolCallViaCpp (runtime true silent)
              (tool_call_text "garbled") (start true silent))
    as [[p m1]|] eqn:E;
    observe_run E (@outcome (runtime true silent) ParsedOutput) Hobs;
    [|discriminate Hobs].
  injection Hobs as -> _. now exists m1.
Qed.

Lemma formatToolsForPrompt_empty_witness :
  @formatToolsForPrompt (runtime true silent) (Some []) (Some "LFM2")
    (start true silent) = Some (Normal EmptyString, start true silent) /\
  @formatToolsForPromptAsync (runtime true silent) (Some []) (Some "LFM2")
    (start true silent) = Some (Normal EmptyString, start true silent).
Proof.
  apply (@formatToolsForPrompt_empty (runtime true silent)).
  reflexivity.
Defined.

Lemma generateWithTools_calls_paired_witness :
  exists r m',
    @generateWithTools (runtime true known_then_unknown) "Weather and time?"
      (with_options 5 true) (start true known_then_unknown) = Some (Normal r, m') /\
    map ToolCall.toolName (ToolCallingResult.toolCalls r) = ["get_weather"; "get_time"] /\
    length (ToolCallingResult.toolCalls r) = length (ToolCallingResult.toolResults r) /\
    forall i call result,
      nth_error (ToolCallingResult.toolCalls r) i = Some call ->
      nth_error (ToolCallingResult.toolResults r) i = Some result ->
      ToolResult.toolName result = ToolCall.toolName call /\
      ToolResult.callId result = ToolCall.callId call.
Proof.
  destruct (@generateWithTools (runtime true known_then_unknown) "Weather and time?"
              (with_options 5 true) (start true known_then_unknown)) as [[out m']|] eqn:E;
    observe_run E (@outcome (runtime true known_then_unknown) ToolCallingResult.t) Hobs;
    [|discriminate Hobs].
  injection Hobs as -> _.
  eexists _, m'. split; [reflexivity|]. split; [reflexivity|].
  apply (@generateWithTools_calls_paired (runtime true known_then_unknown) _ _ _ _ _ E).
  reflexivity.
Defined.

(** Resuming with [maxToolCalls = 1] leaves no budget: nothing is generated,
    although the model had an answer ready. *)
Lemma continueWithToolResult_budget_witness :
  exists evs m',
    @continueWithToolResult (runtime true plain) "Weather in SF?"
      weather_call weather_result
      (with_options 1 false) (start true plain)
      = Some (Normal {| ToolCallingResult.text := EmptyString;
                        ToolCallingResult.toolCalls := [];
                        ToolCallingResult.toolResults := [];
                        ToolCallingResult.isComplete := true |}, m') /\
    trace m' = (trace (start true plain) ++ evs)%list /\
    generations evs = 0%nat.
Proof.
  apply (@continueWithToolResult_budget (runtime true plain)).
  simpl. lia.
Defined.

End Scenarios.

(* ===================================================================== *)
(** ** The registry of tools *)
(* ===================================================================== *)

Section RegistryFacts.

Context `{RT : Runtime}.

Notation "x <- c ;; k" := (bind c (fun x => k))
  (at level 61, c at next level, right associativity).

Lemma assoc_None_iff {A : Type} (key : string) (l : list (string * A)) :
  assoc key l = None <-> ~ In key (map fst l).
Proof.
  induction l as [|[k v] l IH]; simpl; [tauto|].
  destruct (String.eqb_spec k key) as [->|Hne].
  - split; [discriminate | intros H; exfalso; apply H; now left].
  - rewrite IH. split; [intros H [E|E]; [contradiction|auto] | tauto].
Qed.

Lemma assoc_Map_set_same {A : Type} (key : string) (v : A) (l : list (string * A)) :
  assoc key (Map_set key v l) = Some v.
Proof.
  induction l as [|[k x] l IH]; simpl.
  - now rewrite String.eqb_refl.
  - destruct (String.eqb_spec k key) as [->|Hne]; simpl.
    + now rewrite String.eqb_refl.
    + destruct (String.eqb_spec k key); [contradiction|exact IH].
Qed.

Lemma assoc_Map_set_other {A : Type} (key other : string) (v : A)
    (l : list (string * A)) :
  other <> key -> assoc other (Map_set key v l) = assoc other l.
Proof.
  intros Hne. induction l as [|[k x] l IH]; simpl.
  - destruct (String.eqb_spec key other); [congruence|reflexivity].
  - destruct (String.eqb_spec k key) as [->|Hk]; simpl.
    + destruct (String.eqb_spec key other); [congruence|reflexivity].
    + now rewrite IH.
Qed.

Lemma keys_Map_set {A : Type} (key : string) (v : A) (l : list (string * A)) :
  map fst (Map_set key v l)
  = match assoc key l with
    | Some _ => map fst l
    | None => map fst l ++ [key]
    end.
Proof.
  induction l as [|[k x] l IH]; simpl; [reflexivity|].
  destruct (String.eqb_spec k key) as [->|Hk]; simpl; [reflexivity|].
  rewrite IH. now destruct (assoc key l).
Qed.

Lemma assoc_Map_delete_other {A : Type} (key other : string)
    (l : list (string * A)) :
  other <> key -> assoc other (Map_delete key l) = assoc other l.
Proof.
  intros Hne. induction l as [|[k x] l IH]; simpl; [reflexivity|].
  destruct (String.eqb_spec k key) as [->|Hk]; simpl.
  - destruct (String.eqb_spec key other); [congruence|reflexivity].
  - now rewrite IH.
Qed.

Lemma keys_Map_delete_incl {A : Type} (key : string) (l : list (string * A)) :
  forall k, In k (map fst (Map_delete key l)) -> In k (map fst l).
Proof.
  induction l as [|[k0 x] l IH]; simpl; [tauto|].
  destruct (String.eqb_spec k0 key) as [->|Hk]; simpl; intros k; [tauto|].
  intros [E|E]; [now left | right; now apply IH].
Qed.

Lemma NoDup_Map_delete {A : Type} (key : string) (l : list (string * A)) :
  NoDup (map fst l) -> NoDup (map fst (Map_delete key l)).
Proof.
  induction l as [|[k x] l IH]; simpl; intros Hnd; [constructor|].
  inversion Hnd as [|? ? Hnotin Hrest]; subst.
  destruct (String.eqb_spec k key) as [->|Hk]; simpl; [exact Hrest|].
  constructor; [|now apply IH].
  intros Hin. apply Hnotin. now apply keys_Map_delete_incl in Hin.
Qed.

Lemma assoc_Map_delete_same {A : Type} (key : string) (l : list (string * A)) :
  NoDup (map fst l) -> assoc key (Map_delete key l) = None.
Proof.
  induction l as [|[k x] l IH]; simpl; intros Hnd; [reflexivity|].
  inversion Hnd as [|? ? Hnotin Hrest]; subst.
  destruct (String.eqb_spec k key) as [->|Hk]; simpl.
  - now apply assoc_None_iff.
  - destruct (String.eqb_spec k key); [contradiction|now apply IH].
Qed.

Lemma Map_delete_Map_set {A : Type} (key : string) (v : A) (l : list (string * A)) :
  assoc key l = None -> Map_delete key (Map_set key v l) = l.
Proof.
  induction l as [|[k x] l IH]; simpl.
  - now rewrite String.eqb_refl.
  - destruct (String.eqb_spec k key) as [->|Hk]; simpl; [discriminate|].
    intros Hnone. destruct (String.eqb_spec k key); [contradiction|].
    now rewrite IH.
Qed.

Lemma Forall_Map_set {A : Type} (P : string * A -> Prop) (key : string) (v : A)
    (l : list (string * A)) :
  P (key, v) -> Forall P l -> Forall P (Map_set key v l).
Proof.
  intros Hnew. induction 1 as [|[k x] l Hx Hl IH]; simpl.
  - now repeat constructor.
  - destruct (String.eqb_spec k key) as [->|Hk]; constructor; auto.
Qed.

Lemma Forall_Map_delete {A : Type} (P : string * A -> Prop) (key : string)
    (l : list (string * A)) :
  Forall P l -> Forall P (Map_delete key l).
Proof.
  induction 1 as [|[k x] l Hx Hl IH]; simpl; [constructor|].
  destruct (String.eqb k key); [exact Hl | now constructor].
Qed.

(** X1.  The map stays a map: if no key occurs twice and every tool is
    filed under its own name, the same holds after [registerTool], after
    [unregisterTool] and after [clearTools]. *)
Theorem registry_stays_well_formed (m : Machine) :
  registry_wf m ->
  (forall definition executor,
      exists m', registerTool definition executor m = Some (Normal tt, m') /\
                 registry_wf m') /\
  (forall toolName,
      exists m', unregisterTool toolName m = Some (Normal tt, m') /\
                 registry_wf m') /\
  (exists m', clearTools m = Some (Normal tt, m') /\ registry_wf m').
Proof.
  intros [Hnd Hnames]. unfold registry_wf, registered_names in *.
  split; [|split].
  - intros definition executor. eexists. split; [reflexivity|]. simpl. split.
    + rewrite keys_Map_set.
      destruct (assoc _ (registeredTools m)) eqn:Ha; [exact Hnd|].
      apply NoDup_app; [exact Hnd | repeat constructor; intros [] |].
      intros k Hin [<-|[]]. now apply assoc_None_iff in Ha.
    + apply Forall_Map_set; auto.
  - intros toolName. eexists. split; [reflexivity|]. simpl. split.
    + now apply NoDup_Map_delete.
    + now apply Forall_Map_delete.
  - eexists. split; [reflexivity|]. simpl. split; constructor.
Qed.

(** X2.  After [registerTool] the name of the definition is bound to the
    definition and executor just given, every other name is bound as
    before, and neither the world nor the trace has changed. *)
Theorem registerTool_binds_name (definition : ToolDefinition.t)
    (executor : ToolExecutor) (m : Machine) :
  exists m',
    registerTool definition executor m = Some (Normal tt, m') /\
    world m' = world m /\
    trace m' = trace m /\
    assoc (ToolDefinition.name definition) (registeredTools m')
      = Some {| RegisteredTool.definition := definition;
                RegisteredTool.executor := executor |} /\
    forall other,
      other <> ToolDefinition.name definition ->
      assoc other (registeredTools m') = assoc other (registeredTools m).
Proof.
  eexists. split; [reflexivity|]. simpl. repeat split.
  - apply assoc_Map_set_same.
  - intros other Hne. now apply assoc_Map_set_other.
Qed.

(** X3.  The executor registered last is the one that runs: after
    [registerTool], [executeTool] on a call of that name passes the call's
    arguments to the new executor, whatever was registered under the name
    before, and wraps its result as a success. *)
Theorem registerTool_then_executeTool (definition : ToolDefinition.t)
    (executor : ToolExecutor) (call : ToolCall.t) (m : Machine)
    (result : JSONValue) (w : World) :
  ToolCall.toolName call = ToolDefinition.name definition ->
  executor (ToolCall.arguments call) (world m) = (Normal result, w) ->
  (_ <- registerTool definition executor ;; executeTool call) m
  = Some (Normal {| ToolResult.toolName := ToolCall.toolName call;
                    ToolResult.success := true;
                    ToolResult.result := Some result;
                    ToolResult.error := None;
                    ToolResult.callId := ToolCall.callId call |},
          {| world := w;
             registeredTools :=
               Map_set (ToolDefinition.name definition)
                 {| RegisteredTool.definition := definition;
                    RegisteredTool.executor := executor |}
                 (registeredTools m);
             trace := trace m ++ [EvExecutor (ToolCall.toolName call)
                                             (ToolCall.arguments call)] |}).
Proof.
  intros Hname Hrun.
  unfold bind at 1, registerTool, update_registry.
  unfold executeTool, bind, registeredTools_get. simpl.
  rewrite Hname, assoc_Map_set_same. unfold try_catch, bind, external. simpl.
  now rewrite Hrun.
Qed.

(** X4.  After [unregisterTool] the name is unknown: on a map without
    repeated keys, [executeTool] on a call of the removed name returns the
    unknown-tool failure without running any executor, and every other
    name is bound as before. *)
Theorem unregisterTool_then_executeTool (call : ToolCall.t) (m : Machine) :
  NoDup (registered_names m) ->
  (_ <- unregisterTool (ToolCall.toolName call) ;; executeTool call) m
  = Some (Normal {| ToolResult.toolName := ToolCall.toolName call;
                    ToolResult.success := false;
                    ToolResult.result := None;
                    ToolResult.error :=
                      Some ("Unknown tool: " ++ ToolCall.toolName call)%string;
                    ToolResult.callId := ToolCall.callId call |},
          with_registry m (Map_delete (ToolCall.toolName call) (registeredTools m))) /\
  forall other,
    other <> ToolCall.toolName call ->
    assoc other (Map_delete (ToolCall.toolName call) (registeredTools m))
    = assoc other (registeredTools m).
Proof.
  intros Hnd. split.
  - unfold bind at 1, unregisterTool, update_registry.
    unfold executeTool, bind, registeredTools_get. simpl.
    now rewrite assoc_Map_delete_same.
  - intros other Hne. now apply assoc_Map_delete_other.
Qed.

(** X5.  [getRegisteredTools] lists the definitions in registration order:
    on a well-formed map, registering a new name appends its definition at
    the end, and registering a name again puts the new definition in the
    place of the old one, leaving the number and the names of the listed
    tools as they were. *)
Theorem registerTool_keeps_order (definition : ToolDefinition.t)
    (executor : ToolExecutor) (m : Machine) :
  registry_wf m ->
  exists before after m',
    getRegisteredTools m = Some (Normal before, m) /\
    registerTool definition executor m = Some (Normal tt, m') /\
    getRegisteredTools m' = Some (Normal after, m') /\
    (assoc (ToolDefinition.name definition) (registeredTools m) = None ->
     after = before ++ [definition]) /\
    (assoc (ToolDefinition.name definition) (registeredTools m) <> None ->
     length after = length before /\
     map ToolDefinition.name after = map ToolDefinition.name before /\
     In definition after).
Proof.
  intros [_ Hnames]. eexists _, _, _.
  split; [reflexivity|]. split; [reflexivity|]. split; [reflexivity|].
  simpl. set (key := ToolDefinition.name definition).
  set (tool := {| RegisteredTool.definition := definition;
                  RegisteredTool.executor := executor |}).
  induction Hnames as [|[k x] l Hk _ IH]; simpl.
  - split; [reflexivity|]. intros H. now contradiction H.
  - simpl in Hk. destruct (String.eqb_spec k key) as [Heq|Hne]; simpl.
    + split; [discriminate|]. intros _. repeat split.
      * f_equal. fold key. congruence.
      * now left.
    + destruct IH as [IHnew IHold]. split.
      * intros Hnone. now rewrite IHnew.
      * intros Hsome. destruct (IHold Hsome) as (Hlen & Hmap & Hin).
        repeat split; [now rewrite Hlen | now rewrite Hmap | now right].
Qed.

(** X6.  Registering a tool under a name that was free and unregistering
    it again gives the registry back as it was. *)
Theorem registerTool_then_unregisterTool (definition : ToolDefinition.t)
    (executor : ToolExecutor) (m : Machine) :
  assoc (ToolDefinition.name definition) (registeredTools m) = None ->
  exists m',
    (_ <- registerTool definition executor ;;
     unregisterTool (ToolDefinition.name definition)) m = Some (Normal tt, m') /\
    registeredTools m' = registeredTools m /\
    world m' = world m /\
    trace m' = trace m.
Proof.
  intros Hfree. eexists. split; [reflexivity|]. simpl.
  repeat split. now apply Map_delete_Map_set.
Qed.

End RegistryFacts.

(* ===================================================================== *)
(** ** Execution, parsing and prompt building, path by path *)
(* ===================================================================== *)

Section BridgeFacts.

Context `{RT : Runtime}.

(** X7.  [executeTool] always returns a result, never an exception: the
    result carries the call's tool name and call id, has a payload and no
    error when it is a success, an error and no payload when it is a
    failure; at most one executor was invoked, with the call's arguments;
    the registry is as before. *)
Theorem executeTool_always_returns (call : ToolCall.t) (m : Machine) :
  exists r evs m',
    executeTool call m = Some (Normal r, m') /\
    trace m' = trace m ++ evs /\
    (evs = [] \/
     evs = [EvExecutor (ToolCall.toolName call) (ToolCall.arguments call)]) /\
    registeredTools m' = registeredTools m /\
    ToolResult.toolName r = ToolCall.toolName call /\
    ToolResult.callId r = ToolCall.callId call /\
    (ToolResult.success r = true ->
     ToolResult.result r <> None /\ ToolResult.error r = None) /\
    (ToolResult.success r = false ->
     ToolResult.result r = None /\ ToolResult.error r <> None).
Proof.
  unfold executeTool, bind, registeredTools_get.
  destruct (assoc (ToolCall.toolName call) (registeredTools m)) as [tool|].
  - unfold try_catch, bind, external.
    destruct (RegisteredTool.executor tool _ _) as [[result|e] w]; simpl;
      eexists _, [EvExecutor _ _], _;
      (split; [reflexivity|]); simpl;
      repeat split; auto; try discriminate.
  - eexists _, [], m. unfold ret. rewrite app_nil_r.
    split; [reflexivity|]. simpl. repeat split; auto; discriminate.
Qed.

(** X8.  When the bridge reports no tool call, the parse step returns no
    call, and as text the bridge's clean text, or the raw output when the
    clean text is missing or empty. *)
Theorem parseToolCallViaCpp_no_call (llmOutput : string) (m : Machine)
    (resultJson : string) (w : World) (fields : list (string * JSONValue)) :
  isNativeModuleAvailable (world m) = true ->
  requireNativeModule (world m) = Normal tt ->
  native_parseToolCallFromOutput llmOutput (world m) = (Normal resultJson, w) ->
  JSON_parse resultJson = Normal (JObject fields) ->
  truthy (assoc "hasToolCall"%string fields) = false ->
  parseToolCallViaCpp llmOutput m
  = Some (Normal {| text := if truthy (assoc "cleanText"%string fields)
                            then as_string (assoc "cleanText"%string fields)
                            else llmOutput;
                    toolCall := None |},
          {| world := w;
             registeredTools := registeredTools m;
             trace := trace m ++ [EvNative "parseToolCallFromOutput"] |}).
Proof.
  intros Hon Hreq Hnative Hjson Hnone.
  unfold parseToolCallViaCpp, bind at 1, observe. rewrite Hon. simpl.
  unfold try_catch, bind, attempt, external, lift. rewrite Hreq, Hnative, Hjson.
  simpl. unfold ret. now rewrite Hnone.
Qed.

(** Destructs what the hypothesis [H] matches on, until it is an equation
    between results. *)
Ltac split_run H :=
  repeat (cbn beta iota in H;
          match type of H with
          | context [match ?x with _ => _ end] =>
              lazymatch x with
              | context [match _ with _ => _ end] => fail
              | _ => destruct x eqn:?
              end
          end).

(** The same for the goal. *)
Ltac split_goal :=
  repeat (cbn beta iota;
          match goal with
          | |- context [match ?x with _ => _ end] =>
              lazymatch x with
              | context [match _ with _ => _ end] => fail
              | _ => destruct x eqn:?
              end
          end).

(** X9.  A tool call comes out of the parse step only through the native
    module, and always with a call id, which starts with [call_]. *)
Theorem parseToolCallViaCpp_call_id (llmOutput : string) (m m' : Machine)
    (p : ParsedOutput) (call : ToolCall.t) :
  parseToolCallViaCpp llmOutput m = Some (Normal p, m') ->
  toolCall p = Some call ->
  isNativeModuleAvailable (world m) = true /\
  exists id, ToolCall.callId call = Some ("call_" ++ id)%string.
Proof.
  unfold parseToolCallViaCpp, bind, observe, try_catch, attempt, external,
    lift, get_property, ret, throw.
  intros Hrun Hcall.
  destruct (isNativeModuleAvailable (world m)); simpl in Hrun.
  - split; [reflexivity|].
    split_run Hrun; try discriminate;
      injection Hrun as <- _; simpl in Hcall; try discriminate;
      injection Hcall as <-; simpl; eexists; reflexivity.
  - injection Hrun as <- _. discriminate.
Qed.

(** X10.  The parse step calls the native parser at most once and nothing
    else: no generation, no executor; it leaves the registry alone, and
    without the native module it leaves the whole machine as it was. *)
Theorem parseToolCallViaCpp_effects (llmOutput : string) (m : Machine) :
  exists p evs m',
    parseToolCallViaCpp llmOutput m = Some (Normal p, m') /\
    trace m' = trace m ++ evs /\
    (evs = [] \/ evs = [EvNative "parseToolCallFromOutput"]) /\
    registeredTools m' = registeredTools m /\
    (isNativeModuleAvailable (world m) = false -> m' = m).
Proof.
  unfold parseToolCallViaCpp, bind, observe, try_catch, attempt, external,
    lift, get_property, ret, throw.
  destruct (isNativeModuleAvailable (world m)); simpl.
  - split_goal;
      first
        [ eexists _, [], m; split; [reflexivity|];
          rewrite app_nil_r; repeat split; auto; discriminate
        | eexists _, [EvNative "parseToolCallFromOutput"], _;
          split; [reflexivity|]; simpl; repeat split; auto; discriminate ].
  - eexists _, [], m. split; [reflexivity|].
    rewrite app_nil_r. repeat split; auto.
Qed.

(** X11.  When the bridge cannot format (no native module, the module
    does not load, or its formatter throws), [formatToolsForPromptAsync]
    does not throw: it returns what the synchronous [formatToolsForPrompt]
    returns, the raw JSON of the tools. *)
Theorem formatToolsForPromptAsync_falls_back (tools : option (list ToolDefinition.t))
    (format : option string) (m : Machine) :
  isNativeModuleAvailable (world m) = false \/
  (exists e, requireNativeModule (world m) = Abrupt e) \/
  (forall toolsJson toolFormat, exists e w,
      native_formatToolsForPrompt toolsJson toolFormat (world m) = (Abrupt e, w)) ->
  exists s m',
    formatToolsForPrompt tools format m = Some (Normal s, m) /\
    formatToolsForPromptAsync tools format m = Some (Normal s, m') /\
    registeredTools m' = registeredTools m.
Proof.
  intros Hdown.
  unfold formatToolsForPrompt, formatToolsForPromptAsync, bind.
  destruct (safe_tools_or_registered tools m) as (l & evs & m1 & E & _).
  assert (Hm : m1 = m).
  { destruct tools; unfold tools_or_registered, ret, getRegisteredTools in E;
      now injection E. }
  subst m1. rewrite E.
  unfold ret, observe.
  destruct (Nat.eqb (length l) 0);
    [eexists _, _; repeat split; reflexivity|].
  destruct (isNativeModuleAvailable (world m)) eqn:Hon; simpl;
    [|eexists _, _; repeat split; reflexivity].
  unfold try_catch, attempt, external.
  destruct (requireNativeModule (world m)) as [[]|e] eqn:Hreq;
    [|eexists _, _; repeat split; reflexivity].
  destruct Hdown as [Hoff | [[e He] | Hthrows]]; try discriminate.
  destruct (Hthrows (serializeTools l)
              (or_string (option_map toLowerCase format) "default"%string))
    as (e & w & ->).
  eexists _, _; repeat split; reflexivity.
Qed.


(** X13.  [buildInitialPromptViaCpp] never throws, and when the bridge
    cannot build the prompt (no native module, the module does not load,
    or its builder throws) the prompt is the tools JSON, a blank line and
    the user's prompt after [User: ], whatever the options say. *)
Theorem buildInitialPromptViaCpp_falls_back (userPrompt toolsJson : string)
    (options : option ToolCallingOptions.t) (m : Machine) :
  (exists s m', buildInitialPromptViaCpp userPrompt toolsJson options m
                = Some (Normal s, m')) /\
  (isNativeModuleAvailable (world m) = false \/
   (exists e, requireNativeModule (world m) = Abrupt e) \/
   (exists e w, native_buildInitialPrompt userPrompt toolsJson
                  (optionsJson_of options) (world m) = (Abrupt e, w)) ->
   exists m',
     buildInitialPromptViaCpp userPrompt toolsJson options m
     = Some (Normal (toolsJson ++ nl ++ nl ++ "User: " ++ userPrompt)%string, m')).
Proof.
  split.
  - destruct (safe_buildInitialPromptViaCpp userPrompt toolsJson options m)
      as (s & _ & m' & E & _).
    now exists s, m'.
  - intros Hdown. unfold buildInitialPromptViaCpp, bind at 1, observe.
    destruct (isNativeModuleAvailable (world m)) eqn:Hon; simpl;
      [|now eexists].
    unfold try_catch, bind, attempt, external.
    destruct (requireNativeModule (world m)) as [[]|e] eqn:Hreq; [|now eexists].
    destruct Hdown as [Hoff | [[e He] | (e & w & ->)]]; try discriminate.
    now eexists.
Qed.

(** X14.  [buildFollowupPromptViaCpp] never throws.  Without the native
    module it writes the prompt itself and leaves the machine as it was:
    with the tools kept, the tools prompt, the user's prompt and what the
    tool returned; otherwise a prompt without the tools prompt that ends
    with [Respond naturally.].  When the module is there but fails, the
    prompt is the same for both settings and names neither the tools
    prompt nor that ending. *)
Theorem buildFollowupPromptViaCpp_falls_back
    (originalPrompt toolsPrompt toolName resultJson : string) (m : Machine) :
  (forall keep, exists s m',
      buildFollowupPromptViaCpp originalPrompt toolsPrompt toolName resultJson keep m
      = Some (Normal s, m')) /\
  (isNativeModuleAvailable (world m) = false ->
   buildFollowupPromptViaCpp originalPrompt toolsPrompt toolName resultJson true m
   = Some (Normal (toolsPrompt ++ nl ++ nl ++ "User: " ++ originalPrompt ++ nl ++ nl
                   ++ "Tool " ++ toolName ++ " returned: " ++ resultJson)%string, m) /\
   buildFollowupPromptViaCpp originalPrompt toolsPrompt toolName resultJson false m
   = Some (Normal ("The user asked: " ++ dquote ++ originalPrompt ++ dquote
                   ++ nl ++ nl ++ "You used " ++ toolName ++ " and got: "
                   ++ resultJson ++ nl ++ nl ++ "Respond naturally.")%string, m)) /\
  (isNativeModuleAvailable (world m) = true ->
   forall keep,
     (exists e, requireNativeModule (world m) = Abrupt e) \/
     (exists e w, native_buildFollowupPrompt originalPrompt toolsPrompt toolName
                    resultJson keep (world m) = (Abrupt e, w)) ->
     exists m',
       buildFollowupPromptViaCpp originalPrompt toolsPrompt toolName resultJson keep m
       = Some (Normal ("The user asked: " ++ dquote ++ originalPrompt ++ dquote
                       ++ nl ++ nl ++ "You used " ++ toolName ++ " and got: "
                       ++ resultJson)%string, m')).
Proof.
  split; [|split].
  - intros keep.
    destruct (safe_buildFollowupPromptViaCpp originalPrompt toolsPrompt toolName
                resultJson keep m) as (s & _ & m' & E & _).
    now exists s, m'.
  - intros Hoff. unfold buildFollowupPromptViaCpp, bind, observe.
    rewrite Hoff. simpl. split; reflexivity.
  - intros Hon keep Hfail. unfold buildFollowupPromptViaCpp, bind at 1, observe.
    rewrite Hon. simpl. unfold try_catch, bind, attempt, external.
    destruct (requireNativeModule (world m)) as [[]|e] eqn:Hreq; [|now eexists].
    destruct Hfail as [[e He] | (e & w & ->)]; [discriminate|].
    now eexists.
Qed.

End BridgeFacts.

(* ===================================================================== *)
(** ** More on runs of the orchestration *)
(* ===================================================================== *)

Lemma execution_events_executions (c : ToolCall.t) (ex : list Event) :
  execution_events c ex -> (executions ex <= 1)%nat.
Proof. intros [-> | ->]; cbn; lia. Qed.

Lemma calls_of_app (a b : list (string * option ToolCall.t)) :
  calls_of (a ++ b) = calls_of a ++ calls_of b.
Proof.
  induction a as [|[t [c|]] a IH]; simpl; [reflexivity| |]; now rewrite IH.
Qed.

Lemma calls_of_length (log : list (string * option ToolCall.t)) :
  (length (calls_of log) <= length log)%nat.
Proof.
  induction log as [|[t [c|]] log IH]; simpl; lia.
Qed.

Section RunFacts.

Variable maxToolCalls : Z.
Variable autoExecute : bool.

(** The text and the calls at the exit of the loop are those of the parse
    log. *)
Lemma loop_run_reflects_log (v : LoopVars) (evs : list Event)
    (out : Completion (LoopVars + ToolCallingResult.t)) :
  loop_run maxToolCalls autoExecute v evs out ->
  match out with
  | Normal (inl v') =>
      finalText v' = last (map fst (parse_log evs)) (finalText v) /\
      allToolCalls v' = allToolCalls v ++ calls_of (parse_log evs)
  | Normal (inr r) =>
      ToolCallingResult.text r = last (map fst (parse_log evs)) (finalText v) /\
      ToolCallingResult.toolCalls r = allToolCalls v ++ calls_of (parse_log evs)
  | Abrupt _ => True
  end.
Proof.
  induction 1 as [v Hge | v e Hlt | v ns t Hlt N | v ns t c Hlt Hauto N
                 | v ns t c r ex ns' fp evs out Hlt _ N A X N' Hrun IH];
    measure.
  - simpl. now rewrite app_nil_r.
  - exact I.
  - simpl. now rewrite app_nil_r.
  - simpl. auto.
  - cbn [map fst calls_of].
    destruct out as [[v'|r']|e]; [| |exact I];
      cbn [finalText allToolCalls] in IH; destruct IH as [Htext Hcalls];
      rewrite Htext, Hcalls, last_cons, <- app_assoc; auto.
Qed.

(** Executor calls, parsed calls, parse steps and generations of a run,
    in this order, never decrease; the run parses every output but at most
    the last. *)
Lemma loop_run_counts (v : LoopVars) (evs : list Event)
    (out : Completion (LoopVars + ToolCallingResult.t)) :
  loop_run maxToolCalls autoExecute v evs out ->
  (executions evs <= length (calls_of (parse_log evs)))%nat /\
  (length (parse_log evs) <= generations evs)%nat /\
  (generations evs <= length (parse_log evs) + 1)%nat.
Proof.
  induction 1 as [v Hge | v e Hlt | v ns t Hlt N | v ns t c Hlt Hauto N
                 | v ns t c r ex ns' fp evs out Hlt _ N A X N' Hrun IH];
    measure; simpl; try lia.
  apply execution_events_executions in X. lia.
Qed.

End RunFacts.

Section OrchestrationFacts.

Context `{RT : Runtime}.

(** X15.  What [generateWithTools] returns is read off its parse steps:
    the text is the clean text of the last parse (the empty text when
    nothing was parsed) and the calls are the calls the parse steps found,
    in their order. *)
Theorem generateWithTools_result_reflects_parses (prompt : string)
    (options : option ToolCallingOptions.t) (m : Machine) :
  exists out evs m',
    generateWithTools prompt options m = Some (out, m') /\
    trace m' = trace m ++ evs /\
    forall r,
      out = Normal r ->
      ToolCallingResult.text r = last_text (parse_log evs) /\
      ToolCallingResult.toolCalls r = calls_of (parse_log evs).
Proof.
  destruct (generateWithTools_runs prompt options m)
    as (fp0 & out & ns & evs & m' & E & T & N & _ & Hrun).
  exists (result_of_exit out), (ns ++ evs), m'.
  split; [exact E|]. split; [exact T|]. measure.
  intros r Hout. apply loop_run_reflects_log in Hrun.
  destruct out as [[v'|r']|e]; simpl in Hout; try discriminate;
    injection Hout as <-; exact Hrun.
Qed.

(** X16.  In every run of [generateWithTools] there are no more executor
    calls than parsed tool calls, no more parsed tool calls than parse
    steps, no more parse steps than generations, and at most one
    generation whose output was not parsed; the registry is left as it
    was. *)
Theorem generateWithTools_counts (prompt : string)
    (options : option ToolCallingOptions.t) (m : Machine) :
  exists out evs m',
    generateWithTools prompt options m = Some (out, m') /\
    trace m' = trace m ++ evs /\
    registeredTools m' = registeredTools m /\
    (executions evs <= length (calls_of (parse_log evs)))%nat /\
    (length (calls_of (parse_log evs)) <= length (parse_log evs))%nat /\
    (length (parse_log evs) <= generations evs)%nat /\
    (generations evs <= length (parse_log evs) + 1)%nat.
Proof.
  destruct (generateWithTools_runs prompt options m)
    as (fp0 & out & ns & evs & m' & E & T & N & R & Hrun).
  exists (result_of_exit out), (ns ++ evs), m'.
  split; [exact E|]. split; [exact T|]. split; [exact R|]. measure.
  destruct (loop_run_counts _ _ _ _ _ Hrun) as (H1 & H2 & H3).
  repeat split; auto. apply calls_of_length.
Qed.

Section Failures.

Variable prompt : string.
Variable options : option ToolCallingOptions.t.
Variable maxToolCalls : Z.
Variable autoExecute : bool.
Variable keepToolsAvailable : bool.
Variable toolsPrompt : string.




End Failures.


Section NativeOff.

Hypothesis native_off : forall w, isNativeModuleAvailable w = false.

Lemma buildInitialPromptViaCpp_off (userPrompt toolsJson : string)
    (options : option ToolCallingOptions.t) (m : Machine) :
  buildInitialPromptViaCpp userPrompt toolsJson options m
  = Some (Normal (toolsJson ++ nl ++ nl ++ "User: " ++ userPrompt)%string, m).
Proof.
  unfold buildInitialPromptViaCpp, bind, observe. now rewrite native_off.
Qed.

Lemma formatToolsForPromptAsync_off (tools : list ToolDefinition.t)
    (format : option string) (m : Machine) :
  exists s, formatToolsForPromptAsync (Some tools) format m = Some (Normal s, m).
Proof.
  unfold formatToolsForPromptAsync, bind, tools_or_registered, ret, observe.
  destruct (Nat.eqb (length tools) 0); [now eexists|].
  rewrite native_off. now eexists.
Qed.

Lemma parseToolCallViaCpp_off (llmOutput : string) (m : Machine) :
  parseToolCallViaCpp llmOutput m
  = Some (Normal {| text := llmOutput; toolCall := None |}, m).
Proof.
  unfold parseToolCallViaCpp, bind, observe. now rewrite native_off.
Qed.

End NativeOff.

(** X18.  Without the native module tool calling is plain generation: the
    prompt is the tools JSON followed by the user's prompt, one generation
    is made, its output is returned as it is, no tool call is found in it
    and no native call is made. *)
Theorem generateWithTools_without_native (prompt : string)
    (options : option ToolCallingOptions.t) (m : Machine)
    (tokens : list string) (w : World) :
  let tools := match opt options ToolCallingOptions.tools with
               | Some given => given
               | None => map (fun t => RegisteredTool.definition (snd t))
                             (registeredTools m)
               end in
  let firstPrompt := (serializeTools tools ++ nl ++ nl ++ "User: " ++ prompt)%string in
  let responseText := String.concat EmptyString tokens in
  (forall w', isNativeModuleAvailable w' = false) ->
  1 <= nullish (opt options ToolCallingOptions.maxToolCalls) 5 ->
  generateStream firstPrompt
    {| gen_maxTokens := opt options ToolCallingOptions.maxTokens;
       gen_temperature := opt options ToolCallingOptions.temperature |}
    (world m) = (Normal tokens, w) ->
  generateWithTools prompt options m
  = Some (Normal {| ToolCallingResult.text := responseText;
                    ToolCallingResult.toolCalls := [];
                    ToolCallingResult.toolResults := [];
                    ToolCallingResult.isComplete := true |},
          {| world := w;
             registeredTools := registeredTools m;
             trace := trace m ++ [EvGenerate firstPrompt;
                                  EvParsed responseText None] |}).
Proof.
  intros tools firstPrompt responseText Hoff Hmax Hgen.
  unfold generateWithTools.
  assert (Htools : (match opt options ToolCallingOptions.tools with
                    | Some given => ret given
                    | None => getRegisteredTools
                    end) m = Some (Normal tools, m)).
  { unfold tools. now destruct (opt options ToolCallingOptions.tools). }
  unfold bind at 1. rewrite Htools. cbn beta iota.
  unfold bind at 1. rewrite (buildInitialPromptViaCpp_off Hoff). cbn beta iota.
  fold firstPrompt.
  assert (Hfmt : exists toolsPrompt,
             (if nullish (opt options ToolCallingOptions.keepToolsAvailable) false
              then formatToolsForPromptAsync (Some tools)
                     (Some (or_string (opt options ToolCallingOptions.format)
                              "default"%string))
              else ret EmptyString) m = Some (Normal toolsPrompt, m)).
  { destruct (nullish _ false);
      [apply (formatToolsForPromptAsync_off Hoff) | now eexists]. }
  destruct Hfmt as [toolsPrompt Hfmt].
  unfold bind at 1. rewrite Hfmt. cbn beta iota.
  destruct (Z.to_nat (nullish (opt options ToolCallingOptions.maxToolCalls) 5))
    as [|fuel] eqn:Hfuel; [lia|].
  unfold bind at 1. cbn [while_loop iterations].
  destruct (Z.ltb_spec 0 (nullish (opt options ToolCallingOptions.maxToolCalls) 5));
    [|lia].
  unfold bind at 1, loop_body, bind at 1, generate_and_parse, bind at 1, external.
  cbn [fullPrompt world]. rewrite Hgen.
  unfold bind at 1. rewrite (parseToolCallViaCpp_off Hoff).
  unfold bind, note, ret. cbn. now rewrite <- app_assoc.
Qed.

(** X19.  A resumed run keeps the caller's other options and has one
    generation less to spend: [continueWithToolResult] always ends, with at
    most [maxToolCalls - 1] generations (none when that is negative), with
    no executor call when [autoExecute] is [false], and with the registry
    as it was. *)
Theorem continueWithToolResult_bounded (previousPrompt : string)
    (call : ToolCall.t) (toolResult : ToolResult.t)
    (options : option ToolCallingOptions.t) (m : Machine) :
  exists out evs m',
    continueWithToolResult previousPrompt call toolResult options m = Some (out, m') /\
    trace m' = trace m ++ evs /\
    registeredTools m' = registeredTools m /\
    Z.of_nat (generations evs)
      <= Z.max 0 (nullish (opt options ToolCallingOptions.maxToolCalls) 5 - 1) /\
    (opt options ToolCallingOptions.autoExecute = Some false ->
     executions evs = 0%nat).
Proof.
  unfold continueWithToolResult.
  destruct (generateWithTools_runs
              (continuedPrompt_of previousPrompt call toolResult)
              (Some (with_maxToolCalls options
                       (nullish (opt options ToolCallingOptions.maxToolCalls) 5 - 1))) m)
    as (fp0 & out & ns & evs & m' & E & T & N & R & Hrun).
  exists (result_of_exit out), (ns ++ evs), m'.
  split; [exact E|]. split; [exact T|]. split; [exact R|]. measure. split.
  - apply loop_run_bounded in Hrun. simpl in Hrun. lia.
  - intros Hmanual.
    assert (Hauto : opt (Some (with_maxToolCalls options
                                 (nullish (opt options ToolCallingOptions.maxToolCalls) 5 - 1)))
                      ToolCallingOptions.autoExecute = Some false).
    { destruct options; [exact Hmanual | discriminate Hmanual]. }
    rewrite Hauto in Hrun. simpl in Hrun.
    now destruct (loop_run_manual _ _ _ _ Hrun).
Qed.

End OrchestrationFacts.

(* ===================================================================== *)
(** ** These facts at work on the scripted runtime *)
(* ===================================================================== *)

Module MoreScenarios.

Import Demo DemoMore.

#[local] Open Scope string_scope.

(** [observe_end E f H], for [E : c = x] with [c] a closed run: computes
    what [f] shows of the end of [c] and adds the equation, read through
    [E], as [H]. *)
Ltac observe_end E f H :=
  lazymatch type of E with
  | ?c = _ =>
      let v := eval vm_compute in (option_map f c) in
      assert (H : option_map f c = v) by (vm_compute; reflexivity);
      rewrite E in H; cbn beta iota delta [option_map fst snd] in H
  end.

Lemma start_well_formed (native : bool) (script : list (Completion (list string))) :
  registry_wf (start native script).
Proof.
  split.
  - repeat constructor; simpl; intuition discriminate.
  - repeat constructor.
Qed.

Lemma registry_stays_well_formed_witness :
  exists m',
    @registerTool (runtime true silent) get_time (clock true silent)
      (start true silent) = Some (Normal tt, m') /\
    registry_wf m'.
Proof.
  apply (@registry_stays_well_formed (runtime true silent) (start true silent)).
  apply start_well_formed.
Defined.

Lemma registerTool_binds_name_witness :
  exists m',
    @registerTool (runtime true silent) get_time (clock true silent)
      (start true silent) = Some (Normal tt, m') /\
    assoc "crash" (registeredTools m')
    = assoc "crash" (registeredTools (start true silent)).
Proof.
  destruct (@registerTool_binds_name (runtime true silent) get_time
              (clock true silent) (start true silent))
    as (m' & Hrun & _ & _ & _ & Hothers).
  exists m'. split; [exact Hrun|]. apply Hothers. discriminate.
Defined.

Lemma registerTool_then_executeTool_witness :
  exists m',
    @bind (runtime true silent) _ _
      (registerTool get_weather (warmer true silent))
      (fun _ => executeTool weather_call) (start true silent)
    = Some (Normal {| ToolResult.toolName := "get_weather";
                      ToolResult.success := true;
                      ToolResult.result :=
                        Some (JObject [("temperature", JNumber (inject_Z 21))]);
                      ToolResult.error := None;
                      ToolResult.callId := Some "call_11" |}, m').
Proof.
  eexists.
  apply (@registerTool_then_executeTool (runtime true silent) get_weather
           (warmer true silent) weather_call (start true silent)
           (JObject [("temperature", JNumber (inject_Z 21))]) 0%nat).
  - reflexivity.
  - reflexivity.
Defined.

Lemma unregisterTool_then_executeTool_witness :
  exists m',
    @bind (runtime true silent) _ _
      (unregisterTool "get_weather")
      (fun _ => executeTool weather_call) (start true silent)
    = Some (Normal {| ToolResult.toolName := "get_weather";
                      ToolResult.success := false;
                      ToolResult.result := None;
                      ToolResult.error := Some "Unknown tool: get_weather";
                      ToolResult.callId := Some "call_11" |}, m').
Proof.
  eexists.
  apply (@unregisterTool_then_executeTool (runtime true silent) weather_call
           (start true silent)).
  apply start_well_formed.
Defined.

Lemma registerTool_keeps_order_witness :
  exists m',
    @registerTool (runtime true silent) get_time (clock true silent)
      (start true silent) = Some (Normal tt, m') /\
    @getRegisteredTools (runtime true silent) m'
    = Some (Normal [get_weather; crash; get_time], m').
Proof.
  destruct (@registerTool_keeps_order (runtime true silent) get_time
              (clock true silent) (start true silent))
    as (before & after & m' & Hbefore & Hreg & Hafter & Hnew & _).
  { apply start_well_formed. }
  injection Hbefore as <-.
  exists m'. split; [exact Hreg|].
  rewrite Hafter, Hnew; reflexivity.
Defined.

Lemma registerTool_then_unregisterTool_witness :
  exists m',
    @bind (runtime true silent) _ _
      (registerTool get_time (clock true silent))
      (fun _ => unregisterTool "get_time") (start true silent)
    = Some (Normal tt, m') /\
    registeredTools m' = registeredTools (start true silent).
Proof.
  destruct (@registerTool_then_unregisterTool (runtime true silent) get_time
              (clock true silent) (start true silent))
    as (m' & Hrun & Hsame & _).
  { reflexivity. }
  exists m'. split; [exact Hrun | exact Hsame].
Defined.

Lemma executeTool_always_returns_witness :
  exists r m',
    @executeTool (runtime true silent) weather_call (start true silent)
    = Some (Normal r, m') /\
    ToolResult.result r <> None /\
    ToolResult.error r = None.
Proof.
  destruct (@executeTool_always_returns (runtime true silent) weather_call
              (start true silent))
    as (r & evs & m' & E & _ & _ & _ & _ & _ & Hsuccess & _).
  exists r, m'. split; [exact E|]. apply Hsuccess.
  observe_end E (@outcome (runtime true silent) ToolResult.t) Hobs.
  injection Hobs as -> _. reflexivity.
Defined.

Lemma parseToolCallViaCpp_no_call_witness :
  exists m',
    @parseToolCallViaCpp (runtime true plain) answer (start true plain)
    = Some (Normal {| text := answer; toolCall := None |}, m').
Proof.
  eexists.
  apply (@parseToolCallViaCpp_no_call (runtime true plain) answer
           (start true plain) (stringify (bridge_report answer)) 0%nat
           answer_report).
  - reflexivity.
  - reflexivity.
  - reflexivity.
  - vm_compute. reflexivity.
  - reflexivity.
Defined.

Lemma parseToolCallViaCpp_call_id_witness :
  exists call m',
    @parseToolCallViaCpp (runtime true one_call) (tool_call_text "get_weather")
      (start true one_call)
    = Some (Normal {| text := EmptyString; toolCall := Some call |}, m') /\
    exists id, ToolCall.callId call = Some ("call_" ++ id).
Proof.
  destruct (@parseToolCallViaCpp (runtime true one_call)
              (tool_call_text "get_weather") (start true one_call))
    as [[out m']|] eqn:E;
    observe_end E (@outcome (runtime true one_call) ParsedOutput) Hobs;
    [|discriminate Hobs].
  injection Hobs as -> _.
  eexists _, m'. split; [reflexivity|].
  eapply (@parseToolCallViaCpp_call_id (runtime true one_call)).
  - exact E.
  - reflexivity.
Defined.

Lemma parseToolCallViaCpp_effects_witness :
  exists p,
    @parseToolCallViaCpp (runtime false silent) (tool_call_text "get_weather")
      (start false silent) = Some (Normal p, start false silent).
Proof.
  destruct (@parseToolCallViaCpp_effects (runtime false silent)
              (tool_call_text "get_weather") (start false silent))
    as (p & evs & m' & E & _ & _ & _ & Hsame).
  rewrite (Hsame eq_refl) in E. now exists p.
Defined.

Lemma formatToolsForPromptAsync_falls_back_witness :
  exists s m',
    @formatToolsForPrompt (runtime false silent) None (Some "lfm2")
      (start false silent) = Some (Normal s, start false silent) /\
    @formatToolsForPromptAsync (runtime false silent) None (Some "lfm2")
      (start false silent) = Some (Normal s, m') /\
    registeredTools m' = registeredTools (start false silent).
Proof.
  apply (@formatToolsForPromptAsync_falls_back (runtime false silent)).
  left. reflexivity.
Defined.


Lemma buildInitialPromptViaCpp_falls_back_witness :
  exists m',
    @buildInitialPromptViaCpp (runtime false silent) "Weather in SF?" "[]" None
      (start false silent)
    = Some (Normal ("[]" ++ nl ++ nl ++ "User: " ++ "Weather in SF?"), m').
Proof.
  apply (@buildInitialPromptViaCpp_falls_back (runtime false silent)).
  left. reflexivity.
Defined.

Lemma buildFollowupPromptViaCpp_falls_back_witness :
  @buildFollowupPromptViaCpp (runtime false silent) "Weather in SF?" "TOOLS"
    "get_weather" "{}" false (start false silent)
  = Some (Normal ("The user asked: " ++ dquote ++ "Weather in SF?" ++ dquote
                  ++ nl ++ nl ++ "You used " ++ "get_weather" ++ " and got: "
                  ++ "{}" ++ nl ++ nl ++ "Respond naturally."),
          start false silent).
Proof.
  apply (@buildFollowupPromptViaCpp_falls_back (runtime false silent)).
  reflexivity.
Defined.

Lemma generateWithTools_result_reflects_parses_witness :
  exists r m',
    @generateWithTools (runtime true call_then_answer) "Weather in SF?"
      (with_options 3 true) (start true call_then_answer) = Some (Normal r, m') /\
    ToolCallingResult.text r = answer /\
    map ToolCall.toolName (ToolCallingResult.toolCalls r) = ["get_weather"].
Proof.
  destruct (@generateWithTools_result_reflects_parses (runtime true call_then_answer)
              "Weather in SF?" (with_options 3 true) (start true call_then_answer))
    as (out & evs & m' & E & T & Hreflects).
  observe_end E (@outcome (runtime true call_then_answer) ToolCallingResult.t) Hobs.
  injection Hobs as Hout Htrace.
  change (trace (start true call_then_answer) ++ evs)%list with evs in T.
  rewrite Htrace in T. subst evs.
  destruct (Hreflects _ Hout) as [Htext Hcalls].
  rewrite Hout in E.
  eexists _, m'. split; [exact E|]. split; reflexivity.
Defined.


Lemma generateWithTools_without_native_witness :
  exists m',
    @generateWithTools (runtime false one_call) "Weather in SF?"
      (with_options 3 true) (start false one_call)
    = Some (Normal {| ToolCallingResult.text := tool_call_text "get_weather";
                      ToolCallingResult.toolCalls := [];
                      ToolCallingResult.toolResults := [];
                      ToolCallingResult.isComplete := true |}, m').
Proof.
  eexists.
  apply (@generateWithTools_without_native (runtime false one_call)
           "Weather in SF?" (with_options 3 true) (start false one_call)
           [tool_call_text "get_weather"] 1%nat).
  - reflexivity.
  - simpl. lia.
  - reflexivity.
Defined.

Lemma continueWithToolResult_bounded_witness :
  exists out evs m',
    @continueWithToolResult (runtime true one_call) "Weather in SF?"
      weather_call weather_result (with_options 2 false) (start true one_call)
    = Some (out, m') /\
    trace m' = (trace (start true one_call) ++ evs)%list /\
    executions evs = 0%nat.
Proof.
  destruct (@continueWithToolResult_bounded (runtime true one_call)
              "Weather in SF?" weather_call weather_result
              (with_options 2 false) (start true one_call))
    as (out & evs & m' & E & T & _ & _ & Hmanual).
  exists out, evs, m'. split; [exact E|]. split; [exact T|].
  apply Hmanual. reflexivity.
Defined.

End MoreScenarios.
